(** * edunews: the crawl / classify / dedup / query pipeline of functions/main.py

    A shallow embedding of [functions/main.py] and the properties its
    specification states about it.

    - Python [str] values are lists of Unicode code points ([pystr]).
    - Exceptions are explicit: a fallible step returns a [result], and
      [try ... except] is the combinator [try_except].
    - The network, the clock and the Firestore service are a record of
      answers ([Env]); the contents of the [news] collection are explicit
      state ([Firestore]). *)

From Stdlib Require Import List Bool Arith NArith ZArith Lia.
From Stdlib Require Import Strings.String Strings.Ascii.
From Stdlib Require Import Sorting.Sorted Sorting.Permutation.
Import ListNotations.

Set Implicit Arguments.

(* ================================================================== *)
(** ** Python strings *)
(* ================================================================== *)

Module PyStr.

(** A character is its code point, a [str] the list of its characters. *)
Definition char := N.
Definition pystr := list char.

Open Scope N_scope.

(** String literals of this file are UTF-8 in the source text; [utf8_decode]
    turns their bytes into code points. *)
Fixpoint utf8_decode (bs : list N) : pystr :=
  match bs with
  | [] => []
  | b :: r =>
      if b <? 128 then b :: utf8_decode r
      else if b <? 224 then
        match r with
        | c1 :: r1 => ((b - 192) * 64 + (c1 - 128)) :: utf8_decode r1
        | _ => []
        end
      else if b <? 240 then
        match r with
        | c1 :: c2 :: r2 =>
            ((b - 224) * 4096 + (c1 - 128) * 64 + (c2 - 128)) :: utf8_decode r2
        | _ => []
        end
      else
        match r with
        | c1 :: c2 :: c3 :: r3 =>
            ((b - 240) * 262144 + (c1 - 128) * 4096 + (c2 - 128) * 64 + (c3 - 128))
              :: utf8_decode r3
        | _ => []
        end
  end.

Definition u (s : string) : pystr :=
  utf8_decode (map N_of_ascii (list_ascii_of_string s)).

Definition chr (a : ascii) : char := N_of_ascii a.

Fixpoint eqb (s t : pystr) : bool :=
  match s, t with
  | [], [] => true
  | c :: s', d :: t' => (c =? d) && eqb s' t'
  | _, _ => false
  end.

(** [s.startswith(p)] *)
Fixpoint startswith (s p : pystr) : bool :=
  match p, s with
  | [], _ => true
  | _ :: _, [] => false
  | d :: p', c :: s' => (c =? d) && startswith s' p'
  end.

(** [sub in s] *)
Fixpoint contains (sub s : pystr) : bool :=
  startswith s sub ||
  match s with
  | [] => false
  | _ :: s' => contains sub s'
  end.

(** [s.split(sep)] for a one-character separator: always at least one
    piece, one more piece than there are separators. *)
Fixpoint split (sep : char) (s : pystr) : list pystr :=
  match s with
  | [] => [[]]
  | c :: s' =>
      if c =? sep then [] :: split sep s'
      else
        match split sep s' with
        | piece :: pieces => (c :: piece) :: pieces
        | [] => [[c]]
        end
  end.

(** [sep.join(pieces)] *)
Fixpoint join (sep : pystr) (pieces : list pystr) : pystr :=
  match pieces with
  | [] => []
  | [p] => p
  | p :: rest => p ++ sep ++ join sep rest
  end.

(** [str.isspace] on one character (Unicode 14, as CPython 3.11 has it). *)
Definition isspace (c : char) : bool :=
  ((9 <=? c) && (c <=? 13)) || ((28 <=? c) && (c <=? 32)) ||
  (c =? 133) || (c =? 160) || (c =? 5760) ||
  ((8192 <=? c) && (c <=? 8202)) ||
  (c =? 8232) || (c =? 8233) || (c =? 8239) || (c =? 8287) || (c =? 12288).

Fixpoint lstrip (s : pystr) : pystr :=
  match s with
  | [] => []
  | c :: s' => if isspace c then lstrip s' else s
  end.

(** [s.strip()] *)
Definition strip (s : pystr) : pystr := rev (lstrip (rev (lstrip s))).

(** The code points of the digit zero of every decimal-digit block (general
    category Nd, Unicode 14); each block is the ten digits 0..9 in a row. *)
Definition Nd_zeros : list N :=
  [ 48; 1632; 1776; 1984; 2406; 2534; 2662; 2790; 2918; 3046; 3174; 3302;
    3430; 3558; 3664; 3792; 3872; 4160; 4240; 6112; 6160; 6470; 6608; 6784;
    6800; 6992; 7088; 7232; 7248; 42528; 43216; 43264; 43472; 43504; 43600;
    44016; 65296; 66720; 68912; 69734; 69872; 69942; 70096; 70384; 70736;
    70864; 71248; 71360; 71472; 71904; 72016; 72784; 73040; 73120; 92768;
    92864; 93008; 120782; 120792; 120802; 120812; 120822; 123200; 123632;
    125264; 130032 ].

(** The decimal value of a character that the regular expression [\d]
    matches (and that [int] converts), [None] for any other character. *)
Definition decimal (c : char) : option N :=
  match find (fun z => (z <=? c) && (c <? z + 10)) Nd_zeros with
  | Some z => Some (c - z)
  | None => None
  end.

Definition isdecimal (c : char) : bool :=
  match decimal c with Some _ => true | None => false end.

(** [str(n)] for an integer. *)
Fixpoint uint_chars (d : Decimal.uint) : pystr :=
  match d with
  | Decimal.Nil => []
  | Decimal.D0 r => 48 :: uint_chars r
  | Decimal.D1 r => 49 :: uint_chars r
  | Decimal.D2 r => 50 :: uint_chars r
  | Decimal.D3 r => 51 :: uint_chars r
  | Decimal.D4 r => 52 :: uint_chars r
  | Decimal.D5 r => 53 :: uint_chars r
  | Decimal.D6 r => 54 :: uint_chars r
  | Decimal.D7 r => 55 :: uint_chars r
  | Decimal.D8 r => 56 :: uint_chars r
  | Decimal.D9 r => 57 :: uint_chars r
  end.

Definition str_of_int (z : Z) : pystr :=
  match z with
  | Zneg p => 45 :: uint_chars (Pos.to_uint p)
  | _ => uint_chars (N.to_uint (Z.to_N z))
  end.

Close Scope N_scope.

End PyStr.

Import PyStr.

(* ================================================================== *)
(** ** Exceptions *)
(* ================================================================== *)

(** A Python exception, carried as the text [str(e)] that the handlers log
    and report. *)
Inductive exn : Type := Exception (msg : pystr).

Definition str_exn (e : exn) : pystr := match e with Exception msg => msg end.

(** The outcome of a step that may raise. *)
Inductive result (A : Type) : Type :=
  | Return (a : A)
  | Raise (e : exn).

Arguments Return {A} a.
Arguments Raise {A} e.

Definition bind {A B : Type} (r : result A) (k : A -> result B) : result B :=
  match r with
  | Return a => k a
  | Raise e => Raise e
  end.

(** [try: body  except Exception as e: handler(e)] *)
Definition try_except {A : Type} (body : result A) (handler : exn -> result A)
  : result A :=
  match body with
  | Return a => Return a
  | Raise e => handler e
  end.

Notation "x <- c1 ;; c2" := (bind c1 (fun x => c2))
  (at level 61, c1 at next level, right associativity).

(* ================================================================== *)
(** ** datetime: the part of the standard library the recency filter uses *)
(* ================================================================== *)

Module Datetime.

Open Scope Z_scope.

(** A naive [datetime]. *)
Record datetime : Type := mk_datetime {
  year : Z; month : Z; day : Z;
  hour : Z; minute : Z; second : Z; microsecond : Z
}.

Definition MINYEAR : Z := 1.
Definition MAXYEAR : Z := 9999.
Definition MAXORDINAL : Z := 3652059.

Definition is_leap (y : Z) : bool :=
  (y mod 4 =? 0) && (negb (y mod 100 =? 0) || (y mod 400 =? 0)).

Definition DAYS_IN_MONTH (m : Z) : Z :=
  match m with
  | 1 => 31 | 2 => 28 | 3 => 31 | 4 => 30 | 5 => 31 | 6 => 30
  | 7 => 31 | 8 => 31 | 9 => 30 | 10 => 31 | 11 => 30 | 12 => 31
  | _ => -1
  end.

Definition DAYS_BEFORE_MONTH (m : Z) : Z :=
  match m with
  | 1 => 0 | 2 => 31 | 3 => 59 | 4 => 90 | 5 => 120 | 6 => 151
  | 7 => 181 | 8 => 212 | 9 => 243 | 10 => 273 | 11 => 304 | 12 => 334
  | _ => -1
  end.

Definition days_before_year (y : Z) : Z :=
  let y := y - 1 in y * 365 + y / 4 - y / 100 + y / 400.

Definition days_in_month (y m : Z) : Z :=
  if (m =? 2) && is_leap y then 29 else DAYS_IN_MONTH m.

Definition days_before_month (y m : Z) : Z :=
  DAYS_BEFORE_MONTH m + (if (2 <? m) && is_leap y then 1 else 0).

(** [date.toordinal]: 0001-01-01 is day 1. *)
Definition ymd2ord (y m d : Z) : Z :=
  days_before_year y + days_before_month y m + d.

Definition DI400Y : Z := 146097.
Definition DI100Y : Z := 36524.
Definition DI4Y : Z := 1461.

(** [date.fromordinal] *)
Definition ord2ymd (n : Z) : Z * Z * Z :=
  let n := n - 1 in
  let n400 := n / DI400Y in
  let n := n mod DI400Y in
  let y := n400 * 400 + 1 in
  let n100 := n / DI100Y in
  let n := n mod DI100Y in
  let n4 := n / DI4Y in
  let n := n mod DI4Y in
  let n1 := n / 365 in
  let n := n mod 365 in
  let y := y + n100 * 100 + n4 * 4 + n1 in
  if (n1 =? 4) || (n100 =? 4) then (y - 1, 12, 31)
  else
    let leapyear := (n1 =? 3) && (negb (n4 =? 24) || (n100 =? 3)) in
    let m := Z.shiftr (n + 50) 5 in
    let preceding :=
      DAYS_BEFORE_MONTH m + (if (2 <? m) && leapyear then 1 else 0) in
    if n <? preceding then
      let m := m - 1 in
      let preceding :=
        preceding - (DAYS_IN_MONTH m + (if (m =? 2) && leapyear then 1 else 0)) in
      (y, m, n - preceding + 1)
    else (y, m, n - preceding + 1).

Definition toordinal (t : datetime) : Z := ymd2ord (year t) (month t) (day t).

(** [t - timedelta(days=n)]: the date moves, the time of day stays;
    [None] is the [OverflowError] of a result before 0001-01-01 or after
    9999-12-31. *)
Definition sub_days (t : datetime) (n : Z) : option datetime :=
  let o := toordinal t - n in
  if (0 <? o) && (o <=? MAXORDINAL) then
    let '(y, m, d) := ord2ymd o in
    Some (mk_datetime y m d (hour t) (minute t) (second t) (microsecond t))
  else None.

Definition lex (c1 c2 : comparison) : comparison :=
  match c1 with Eq => c2 | _ => c1 end.

(** Comparison of two naive datetimes: field by field, year first. *)
Definition cmp (a b : datetime) : comparison :=
  lex (year a ?= year b)
 (lex (month a ?= month b)
 (lex (day a ?= day b)
 (lex (hour a ?= hour b)
 (lex (minute a ?= minute b)
 (lex (second a ?= second b)
      (microsecond a ?= microsecond b)))))).

(** [a >= b] *)
Definition ge (a b : datetime) : bool :=
  match cmp a b with Lt => false | _ => true end.

(** [_check_date_fields] *)
Definition check_date_fields (y m d : Z) : bool :=
  (MINYEAR <=? y) && (y <=? MAXYEAR) &&
  (1 <=? m) && (m <=? 12) &&
  (1 <=? d) && (d <=? days_in_month y m).

(** *** strptime

    [_strptime] turns the format into a regular expression, takes the first
    match of it at the start of the text in the order a backtracking matcher
    tries the alternatives, and raises [ValueError] when there is no match,
    when text is left over after the match, or when the fields are no date.
    A [parser] lists the matches of an expression in that order. *)

Definition parser (A : Type) : Type := pystr -> list (A * pystr).

Definition p_ret {A : Type} (a : A) : parser A := fun s => [(a, s)].

Definition p_bind {A B : Type} (p : parser A) (k : A -> parser B) : parser B :=
  fun s => flat_map (fun ar => k (fst ar) (snd ar)) (p s).

(** [p|q] *)
Definition p_alt {A : Type} (p q : parser A) : parser A :=
  fun s => p s ++ q s.

(** [\d]: any Unicode decimal digit. *)
Definition p_digit : parser Z :=
  fun s =>
    match s with
    | c :: r =>
        match decimal c with
        | Some v => [(Z.of_N v, r)]
        | None => []
        end
    | [] => []
    end.

(** [[lo-hi]] for ASCII digits [lo] and [hi]. *)
Definition p_range (lo hi : N) : parser Z :=
  fun s =>
    match s with
    | c :: r =>
        if ((48 + lo <=? c) && (c <=? 48 + hi))%N then [(Z.of_N (c - 48), r)]
        else []
    | [] => []
    end.

(** One literal character. *)
Definition p_char (c : char) : parser unit :=
  fun s =>
    match s with
    | c' :: r => if (c' =? c)%N then [(tt, r)] else []
    | [] => []
    end.

(** [%Y]: [\d\d\d\d] *)
Definition re_Y : parser Z :=
  p_bind p_digit (fun a => p_bind p_digit (fun b =>
  p_bind p_digit (fun c => p_bind p_digit (fun d =>
  p_ret (1000 * a + 100 * b + 10 * c + d))))).

(** [%m]: [1[0-2]|0[1-9]|[1-9]] *)
Definition re_m : parser Z :=
  p_alt (p_bind (p_range 1 1) (fun a => p_bind (p_range 0 2) (fun b =>
           p_ret (10 * a + b))))
 (p_alt (p_bind (p_range 0 0) (fun _ => p_range 1 9))
        (p_range 1 9)).

(** [%d]: [3[0-1]|[1-2]\d|0[1-9]|[1-9]| [1-9]] *)
Definition re_d : parser Z :=
  p_alt (p_bind (p_range 3 3) (fun a => p_bind (p_range 0 1) (fun b =>
           p_ret (10 * a + b))))
 (p_alt (p_bind (p_range 1 2) (fun a => p_bind p_digit (fun b =>
           p_ret (10 * a + b))))
 (p_alt (p_bind (p_range 0 0) (fun _ => p_range 1 9))
 (p_alt (p_range 1 9)
        (p_bind (p_char 32%N) (fun _ => p_range 1 9))))).

(** The directives the four formats of the recency filter are made of. *)
Inductive directive : Type :=
  | pct_Y
  | pct_m
  | pct_d
  | lit (c : char).

Definition format : Type := list directive.

(** The fields a match has found; a missing year is 1900 later on. *)
Record parsed : Type := mk_fields {
  f_year : option Z; f_month : Z; f_day : Z
}.

Fixpoint re_format (fmt : format) (acc : parsed) : parser parsed :=
  match fmt with
  | [] => p_ret acc
  | pct_Y :: fmt' =>
      p_bind re_Y (fun y =>
        re_format fmt' (mk_fields (Some y) (f_month acc) (f_day acc)))
  | pct_m :: fmt' =>
      p_bind re_m (fun m =>
        re_format fmt' (mk_fields (f_year acc) m (f_day acc)))
  | pct_d :: fmt' =>
      p_bind re_d (fun d =>
        re_format fmt' (mk_fields (f_year acc) (f_month acc) d))
  | lit c :: fmt' => p_bind (p_char c) (fun _ => re_format fmt' acc)
  end.

(** [datetime.strptime(text, fmt)]; [None] is its [ValueError].  A 29th of
    February without a year is first checked in 1904 and then built in
    1900, where it is no date. *)
Definition strptime (text : pystr) (fmt : format) : option datetime :=
  match re_format fmt (mk_fields None 1 1) text with
  | [] => None
  | (f, rest) :: _ =>
      match rest with
      | _ :: _ => None
      | [] =>
          let m := f_month f in
          let d := f_day f in
          let y_check :=
            match f_year f with
            | Some y => y
            | None => if (m =? 2) && (d =? 29) then 1904 else 1900
            end in
          let y := match f_year f with Some y => y | None => 1900 end in
          if check_date_fields y_check m d && check_date_fields y m d
          then Some (mk_datetime y m d 0 0 0 0)
          else None
      end
  end.

Close Scope Z_scope.

End Datetime.

Import Datetime.

(* ================================================================== *)
(** ** Recency filter: [is_recent_article] *)
(* ================================================================== *)

Definition HYPHEN : char := 45%N.
Definition PERIOD : char := 46%N.
Definition SLASH : char := 47%N.

(** [re.sub(r'[^\d\-\.]', '', date_text)] *)
Definition clean_date_text (date_text : pystr) : pystr :=
  filter (fun c => isdecimal c || (c =? HYPHEN)%N || (c =? PERIOD)%N) date_text.

(** ['%Y-%m-%d'], ['%Y.%m.%d'], ['%m-%d'], ['%m.%d'] *)
Definition fmt_Y_m_d_hyphen : format := [pct_Y; lit HYPHEN; pct_m; lit HYPHEN; pct_d].
Definition fmt_Y_m_d_period : format := [pct_Y; lit PERIOD; pct_m; lit PERIOD; pct_d].
Definition fmt_m_d_hyphen : format := [pct_m; lit HYPHEN; pct_d].
Definition fmt_m_d_period : format := [pct_m; lit PERIOD; pct_d].

Definition DATE_FORMATS : list format :=
  [fmt_Y_m_d_hyphen; fmt_Y_m_d_period; fmt_m_d_hyphen; fmt_m_d_period].

(** The test and the assignment at the head of the loop body: a text of two
    hyphen- or period-delimited pieces gets the current year and a hyphen in
    front. *)
Definition prepend_year (now : datetime) (date_text : pystr) : pystr :=
  if (List.length (split HYPHEN date_text) =? 2)%nat
     || (List.length (split PERIOD date_text) =? 2)%nat
  then str_of_int (year now) ++ [HYPHEN] ++ date_text
  else date_text.

(** The loop over the formats.  [date_text] is assigned inside the loop
    body, so what one round prepends is still there in the next round; a
    round that raises ([strptime], or the subtraction) goes on to the next
    format, and the loop falling through means [True]. *)
Fixpoint try_formats (now : datetime) (fmts : list format) (date_text : pystr)
  : bool :=
  match fmts with
  | [] => true
  | fmt :: fmts' =>
      let date_text := prepend_year now date_text in
      match strptime date_text fmt with
      | Some article_date =>
          match sub_days now 30 with
          | Some thirty_days_ago => Datetime.ge article_date thirty_days_ago
          | None => try_formats now fmts' date_text
          end
      | None => try_formats now fmts' date_text
      end
  end.

(** [is_recent_article(date_text)], with the moment [datetime.now()] gives. *)
Definition is_recent_article (now : datetime) (date_text : pystr) : bool :=
  try_formats now DATE_FORMATS (clean_date_text date_text).

(* ================================================================== *)
(** ** Summarizer and classifier *)
(* ================================================================== *)

(** The [keywords] dict of [extract_content_summary], in declaration order
    (the order a dict is iterated in). *)
Definition SUMMARY_KEYWORDS : list (pystr * pystr) :=
  [ (u "입시", u "대학입시 관련 중요 공지사항입니다.");
    (u "수능", u "대학수학능력시험 관련 안내사항입니다.");
    (u "전형", u "대학 입학전형 변경 또는 안내사항입니다.");
    (u "모집", u "대학 신입생 모집 관련 정보입니다.");
    (u "원서", u "입학원서 접수 관련 안내입니다.");
    (u "면접", u "입학 면접전형 관련 정보입니다.");
    (u "특목고", u "특목고 입학 관련 안내사항입니다.");
    (u "자사고", u "자율형사립고 관련 정보입니다.") ].

Definition FALLBACK_SUMMARY : pystr :=
  u "입시 관련 중요 정보를 확인하시기 바랍니다.".

(** [for keyword, summary in keywords.items(): if keyword in title: return summary] *)
Fixpoint first_summary (keywords : list (pystr * pystr)) (title : pystr)
  : option pystr :=
  match keywords with
  | [] => None
  | (keyword, summary) :: rest =>
      if contains keyword title then Some summary
      else first_summary rest title
  end.

Definition extract_content_summary (title : pystr) : pystr :=
  match first_summary SUMMARY_KEYWORDS title with
  | Some summary => summary
  | None => FALLBACK_SUMMARY
  end.

Inductive Category : Type :=
  | major_news
  | university_news
  | exam_schedule
  | education_office_news.

(** The string the code stores and queries for a category. *)
Definition category_name (c : Category) : pystr :=
  match c with
  | major_news => u "major_news"
  | university_news => u "university_news"
  | exam_schedule => u "exam_schedule"
  | education_office_news => u "education_office_news"
  end.

Definition category_eqb (a b : Category) : bool :=
  match a, b with
  | major_news, major_news
  | university_news, university_news
  | exam_schedule, exam_schedule
  | education_office_news, education_office_news => true
  | _, _ => false
  end.

Definition ADMISSION_WORDS : list pystr := [u "대입"; u "수능"; u "입시"; u "전형"].
Definition UNIVERSITY_WORDS : list pystr := [u "대학교"; u "대학"].
Definition SCHEDULE_WORDS : list pystr := [u "일정"; u "모집"; u "접수"; u "마감"].

(** [any(word in text for word in words)] *)
Definition any_word_in (words : list pystr) (text : pystr) : bool :=
  existsb (fun word => contains word text) words.

Section Pipeline.

(** [str.lower], the Unicode lower-casing of the Python runtime; nothing
    below depends on which function it is. *)
Variable lower : pystr -> pystr.

Definition classify_article (title : pystr) : Category :=
  let title_lower := lower title in
  if any_word_in ADMISSION_WORDS title_lower then major_news
  else if any_word_in UNIVERSITY_WORDS title_lower then university_news
  else if any_word_in SCHEDULE_WORDS title_lower then exam_schedule
  else education_office_news.

(* ================================================================== *)
(** ** Site registry, pages and the listing extractor *)
(* ================================================================== *)

Record Config : Type := mk_config {
  url : pystr;
  selector : pystr;
  title_selector : pystr;
  date_selector : pystr
}.

Definition EDUCATION_OFFICES : list (pystr * Config) :=
  [ (u "교육부",
     mk_config (u "https://www.moe.go.kr/boardCnts/list.do?boardID=294")
               (u ".board-list-table tbody tr") (u ".title a") (u ".date"));
    (u "서울시교육청",
     mk_config (u "https://www.sen.go.kr/web/services/bbs/bbsList.action?bbsBean.bbsCd=140")
               (u ".bbs-list tbody tr") (u ".subject a") (u ".reg-date"));
    (u "경기도교육청",
     mk_config (u "https://www.goe.go.kr/home/bbs/bbsList.do?menuNo=1020408")
               (u ".board_list tbody tr") (u ".title a") (u ".date"));
    (u "인천시교육청",
     mk_config (u "https://www.ice.go.kr/contents.do?menuNo=200047")
               (u ".list tbody tr") (u ".subject a") (u ".date")) ].

(** An element a selector found: its text and its [href] attribute. *)
Record Tag : Type := mk_tag {
  get_text : pystr;
  href : option pystr
}.

(** A listing row: what [select_one] finds inside it, per selector. *)
Record Element : Type := mk_element {
  select_one : pystr -> option Tag
}.

(** A parsed page: the elements [select] finds, in document order. *)
Record Soup : Type := mk_soup {
  select : pystr -> list Element
}.

(** An HTTP response: whether [raise_for_status] raises on it, and what
    [BeautifulSoup(response.content, 'html.parser')] makes of its body. *)
Record Response : Type := mk_response {
  raise_for_status : result unit;
  BeautifulSoup : result Soup
}.

Record Article : Type := mk_article {
  title : pystr;
  source : pystr;
  link : pystr;
  date : pystr;
  content : pystr;
  category : Category
}.

(** What a pass finds outside the program: the clock, the network and
    whether the Firestore calls go through. *)
Record Env : Type := mk_env {
  now : datetime;                          (* datetime.now() *)
  requests_get : pystr -> result Response; (* requests.get(url, headers, timeout=10) *)
  firestore_client : result unit;          (* firestore.client() *)
  query_get : result unit;                 (* the call that runs a query: .get(), .stream() *)
  batch_commit : result unit               (* the call of batch.commit() *)
}.

(** Lines 117-121: a link that is not empty and does not start with
    ['http'] is put behind the first three ['/']-pieces of the endpoint. *)
Definition resolve_link (config_url link : pystr) : pystr :=
  match link with
  | [] => link
  | _ :: _ =>
      if negb (startswith link (u "http")) then
        let base_url := join [SLASH] (firstn 3 (split SLASH config_url)) in
        base_url ++ link
      else link
  end.

(** The body of the row loop; [None] is a row that is skipped or filtered
    out.  No step of the body raises here, so the handler around it has
    nothing to catch. *)
Definition extract_article (env : Env) (office_name : pystr) (config : Config)
    (element : Element) : option Article :=
  match select_one element (title_selector config) with
  | None => None
  | Some title_element =>
      let title := strip (get_text title_element) in
      let link := match href title_element with Some h => h | None => [] end in
      let link := resolve_link (url config) link in
      let date_text :=
        match select_one element (date_selector config) with
        | Some date_element => strip (get_text date_element)
        | None => []
        end in
      if is_recent_article (now env) date_text then
        Some (mk_article title office_name link date_text
                (extract_content_summary title) (classify_article title))
      else None
  end.

(** The row loop over the elements it is given. *)
Fixpoint extract_articles (env : Env) (office_name : pystr) (config : Config)
    (elements : list Element) : list Article :=
  match elements with
  | [] => []
  | element :: rest =>
      match extract_article env office_name config element with
      | Some article => article :: extract_articles env office_name config rest
      | None => extract_articles env office_name config rest
      end
  end.

(** Lines 97-105: request, status check, parse. *)
Definition fetch_page (env : Env) (config : Config) : result Soup :=
  response <- requests_get env (url config) ;;
  _ <- raise_for_status response ;;
  BeautifulSoup response.

(** [article_elements[:5]] *)
Definition candidate_rows (soup : Soup) (config : Config) : list Element :=
  firstn 5 (select soup (selector config)).

Definition crawl_education_office (env : Env) (office_name : pystr)
    (config : Config) : result (list Article) :=
  try_except
    (soup <- fetch_page env config ;;
     Return (extract_articles env office_name config (candidate_rows soup config)))
    (fun e => Return []).

(** The loop of [weekly_news_crawler] over the registry. *)
Fixpoint crawl_offices (env : Env) (offices : list (pystr * Config))
    (all_articles : list Article) : list Article :=
  match offices with
  | [] => all_articles
  | (office_name, config) :: rest =>
      match crawl_education_office env office_name config with
      | Return articles => crawl_offices env rest (all_articles ++ articles)
      | Raise e => crawl_offices env rest all_articles
      end
  end.

(* ================================================================== *)
(** ** The store *)
(* ================================================================== *)

(** A document of the [news] collection: its identity, the article and the
    server-assigned creation time. *)
Record Doc : Type := mk_doc {
  doc_id : N;
  fields : Article;
  created_at : Z
}.

(** The [news] collection, the next fresh document identity and the
    server's clock. *)
Record Firestore : Type := mk_firestore {
  news : list Doc;
  next_id : N;
  server_time : Z
}.

Definition same_key (a b : Article) : bool :=
  PyStr.eqb (title a) (title b) && PyStr.eqb (source a) (source b).

(** [.where('title', '==', ...).where('source', '==', ...).limit(1).get()] *)
Definition existing_docs (env : Env) (db : Firestore) (article : Article)
  : result (list Doc) :=
  _ <- query_get env ;;
  Return (firstn 1 (filter (fun d => same_key (fields d) article) (news db))).

(** The loop of [save_articles_to_firestore]: every candidate is checked
    against the collection as it is (the batch is not written yet) and, when
    nothing is found, staged under a fresh identity. *)
Fixpoint stage_articles (env : Env) (db : Firestore) (articles : list Article)
    (fresh : N) (batch : list (N * Article)) : result (N * list (N * Article)) :=
  match articles with
  | [] => Return (fresh, batch)
  | article :: rest =>
      existing <- existing_docs env db article ;;
      match existing with
      | [] => stage_articles env db rest (fresh + 1) (batch ++ [(fresh, article)])
      | _ :: _ => stage_articles env db rest fresh batch
      end
  end.

(** [batch.commit()]: all staged documents are written at once, each with
    the server's time as [created_at]. *)
Definition commit (env : Env) (db : Firestore) (fresh : N)
    (batch : list (N * Article)) : result Firestore :=
  _ <- batch_commit env ;;
  Return (mk_firestore
            (news db ++ map (fun w => mk_doc (fst w) (snd w) (server_time db)) batch)
            fresh
            (server_time db + 1)%Z).

Definition save_articles_to_firestore (env : Env) (db : Firestore)
    (articles : list Article) : result Firestore :=
  staged <- stage_articles env db articles (next_id db) [] ;;
  commit env db (fst staged) (snd staged).

(* ================================================================== *)
(** ** Entry points *)
(* ================================================================== *)

(** The status record a pass returns; [timestamp] is the moment whose
    [isoformat] text the code returns. *)
Inductive StatusRecord : Type :=
  | status_success (articles_count : nat) (timestamp : datetime)
  | status_error (error : pystr) (timestamp : datetime).

(** The [try] block of [weekly_news_crawler]. *)
Definition crawl_pass (env : Env) (db : Firestore)
  : result (StatusRecord * Firestore) :=
  _ <- firestore_client env ;;
  let all_articles := crawl_offices env EDUCATION_OFFICES [] in
  db' <- match all_articles with
         | _ :: _ => save_articles_to_firestore env db all_articles
         | [] => Return db
         end ;;
  Return (status_success (List.length all_articles) (now env), db').

Definition weekly_news_crawler (env : Env) (db : Firestore)
  : result (StatusRecord * Firestore) :=
  try_except (crawl_pass env db)
    (fun e => Return (status_error (str_exn e) (now env), db)).

Inductive Body : Type :=
  | body_empty                           (* '' *)
  | body_status (record : StatusRecord)  (* json.dumps(result) *)
  | body_error (message : pystr)         (* json.dumps({'error': str(e)}) *)
  | body_news (data : list (Category * list Doc)).  (* json.dumps(news_data) *)

Record HttpResponse : Type := mk_http {
  body : Body;
  status : Z;
  headers : list (pystr * pystr)
}.

Definition CORS_HEADERS : list (pystr * pystr) :=
  [ (u "Access-Control-Allow-Origin", u "*");
    (u "Access-Control-Allow-Methods", u "GET, POST, OPTIONS");
    (u "Access-Control-Allow-Headers", u "Content-Type") ].

(** [manual_crawl(request)], on [request.method]. *)
Definition manual_crawl (env : Env) (db : Firestore) (method : pystr)
  : HttpResponse * Firestore :=
  if PyStr.eqb method (u "OPTIONS") then (mk_http body_empty 204 CORS_HEADERS, db)
  else
    match weekly_news_crawler env db with
    | Return (record, db') => (mk_http (body_status record) 200 CORS_HEADERS, db')
    | Raise e => (mk_http (body_error (str_exn e)) 500 CORS_HEADERS, db)
    end.

(** The query of [get_latest_news]:
    [.where('category', '==', c).order_by('created_at', DESCENDING).limit(5)].
    Documents of equal creation time come in descending identity order. *)
Definition comes_before (a b : Doc) : bool :=
  (created_at b <? created_at a)%Z
  || ((created_at a =? created_at b)%Z && (doc_id b <=? doc_id a)%N).

Fixpoint insert_doc (d : Doc) (sorted : list Doc) : list Doc :=
  match sorted with
  | [] => [d]
  | x :: rest =>
      if comes_before d x then d :: sorted else x :: insert_doc d rest
  end.

Definition order_by_created_at_desc (docs : list Doc) : list Doc :=
  fold_right insert_doc [] docs.

Definition where_category (c : Category) (docs : list Doc) : list Doc :=
  filter (fun d => category_eqb (category (fields d)) c) docs.

Definition latest_of_category (db : Firestore) (c : Category) : list Doc :=
  firstn 5 (order_by_created_at_desc (where_category c (news db))).

(** The keys of [news_data], in declaration order. *)
Definition NEWS_CATEGORIES : list Category :=
  [major_news; education_office_news; university_news; exam_schedule].

(** The mapping [news_data] that the loop of [get_latest_news] fills: for
    each category the documents its query streams. *)
Definition news_data (db : Firestore) : list (Category * list Doc) :=
  map (fun c => (c, latest_of_category db c)) NEWS_CATEGORIES.

(** The text of the [TypeError] of [json.dumps] below. *)
Definition NOT_JSON_SERIALIZABLE : pystr :=
  u "Object of type DatetimeWithNanoseconds is not JSON serializable".

(** [json.dumps(news_data, ensure_ascii=False)].  Every listed document is
    the dict [doc.to_dict()], and its ['created_at'] is the timestamp the
    server wrote at the commit, which Firestore hands back as a datetime
    ([DatetimeWithNanoseconds]).  The call names no [default], so the
    encoder raises [TypeError] at the first document it meets; a mapping of
    four empty lists is rendered. *)
Definition json_dumps_news (data : list (Category * list Doc)) : result Body :=
  if forallb (fun entry => match snd entry with [] => true | _ :: _ => false end)
             data
  then Return (body_news data)
  else Raise (Exception NOT_JSON_SERIALIZABLE).

(** The [try] block of [get_latest_news]: the client, the unused
    [week_ago] (whose subtraction raises [OverflowError] in the first week
    of year 1), the four queries and the rendering. *)
Definition latest_news_body (env : Env) (db : Firestore) : result Body :=
  _ <- firestore_client env ;;
  _ <- match sub_days (now env) 7 with
       | Some week_ago => Return tt
       | None => Raise (Exception (u "date value out of range"))
       end ;;
  _ <- query_get env ;;
  json_dumps_news (news_data db).

(** [get_latest_news(request)], on [request.method]. *)
Definition get_latest_news (env : Env) (db : Firestore) (method : pystr)
  : HttpResponse :=
  if PyStr.eqb method (u "OPTIONS") then mk_http body_empty 204 CORS_HEADERS
  else
    match latest_news_body env db with
    | Return rendered => mk_http rendered 200 CORS_HEADERS
    | Raise e => mk_http (body_error (str_exn e)) 500 CORS_HEADERS
    end.

End Pipeline.

(* ================================================================== *)
(** ** Vocabulary of the properties *)
(* ================================================================== *)

(** [sub] occurs in [s] as a run of consecutive characters. *)
Definition is_substring (sub s : pystr) : Prop :=
  exists pre post, s = pre ++ sub ++ post.

(** Some word of [words] occurs in [text]. *)
Definition has_word (words : list pystr) (text : pystr) : Prop :=
  exists word, In word words /\ is_substring word text.

(** The rule of the specification: the category of a case-folded title is
    decided by the first of the three keyword sets that has a word in it. *)
Definition category_rule (text : pystr) (c : Category) : Prop :=
  match c with
  | major_news => has_word ADMISSION_WORDS text
  | university_news =>
      ~ has_word ADMISSION_WORDS text /\ has_word UNIVERSITY_WORDS text
  | exam_schedule =>
      ~ has_word ADMISSION_WORDS text /\ ~ has_word UNIVERSITY_WORDS text /\
      has_word SCHEDULE_WORDS text
  | education_office_news =>
      ~ has_word ADMISSION_WORDS text /\ ~ has_word UNIVERSITY_WORDS text /\
      ~ has_word SCHEDULE_WORDS text
  end.

(** What one source adds to the pass. *)
Definition articles_of (lower : pystr -> pystr) (env : Env)
    (office : pystr * Config) : list Article :=
  match crawl_education_office lower env (fst office) (snd office) with
  | Return articles => articles
  | Raise _ => []
  end.

(** [a] is listed before [b] only if it was created no earlier. *)
Definition newer_first (a b : Doc) : Prop := (created_at b <= created_at a)%Z.

(** The natural key of an article. *)
Definition key (a : Article) : pystr * pystr := (title a, source a).

(** The keys of the stored documents, in collection order. *)
Definition store_keys (db : Firestore) : list (pystr * pystr) :=
  map (fun d => key (fields d)) (news db).

(** The candidate is not in the collection yet. *)
Definition is_new (db : Firestore) (article : Article) : bool :=
  negb (existsb (fun d => same_key (fields d) article) (news db)).

(** How often a character occurs in a text. *)
Definition occurrences (c : char) (s : pystr) : nat :=
  List.length (filter (fun x => (x =? c)%N) s).

(** A parser that, whenever it matches, takes a prefix with [h] hyphens
    and [q] periods off the text. *)
Definition consumes {A : Type} (p : parser A) (h q : nat) : Prop :=
  forall s a r,
    In (a, r) (p s) ->
    exists w, s = w ++ r /\ occurrences HYPHEN w = h /\ occurrences PERIOD w = q.

(** The hyphens and periods a format asks for. *)
Definition literal_count (c : char) (fmt : format) : nat :=
  List.length (filter (fun d => match d with lit c' => (c' =? c)%N | _ => false end) fmt).

(** The text ends in a decimal digit. *)
Definition ends_in_digit (s : pystr) : bool :=
  match rev s with
  | c :: _ => isdecimal c
  | [] => false
  end.

(** A parser whose every match ends on a decimal digit. *)
Definition ends_on_digit {A : Type} (p : parser A) : Prop :=
  forall s a r,
    In (a, r) (p s) -> exists w c, s = w ++ c :: r /\ isdecimal c = true.

(** One round of the format loop taken alone: the comparison with the
    moment thirty days back when [text] is a date of the format and the
    subtraction goes through, [true] otherwise. *)
Definition decided_by (now : datetime) (text : pystr) (fmt : format) : bool :=
  match strptime text fmt with
  | Some article_date =>
      match sub_days now 30 with
      | Some thirty_days_ago => Datetime.ge article_date thirty_days_ago
      | None => true
      end
  | None => true
  end.

(** [a] is a calendar day after [b], the time of day left aside. *)
Definition later_day (a b : datetime) : Prop :=
  (year b < year a \/
   (year a = year b /\ month b < month a) \/
   (year a = year b /\ month a = month b /\ day b < day a))%Z.

(** [a] and [b] are on the same calendar day. *)
Definition same_day (a b : datetime) : Prop :=
  year a = year b /\ month a = month b /\ day a = day b.

(** The time of day is 00:00:00.000000. *)
Definition at_midnight (t : datetime) : Prop :=
  hour t = 0%Z /\ minute t = 0%Z /\ second t = 0%Z /\ microsecond t = 0%Z.

(** The time-of-day fields are not negative. *)
Definition time_not_negative (t : datetime) : Prop :=
  (0 <= hour t /\ 0 <= minute t /\ 0 <= second t /\ 0 <= microsecond t)%Z.

(** The three shapes of a cleaned text that a round of the loop can parse:
    a hyphen month-day (parsed with the year in front), a full hyphen date
    and a full period date, each with the text and the format of the round
    that parses it. *)
Definition date_shape (now : datetime) (text parsed : pystr) (fmt : format)
  : Prop :=
  (occurrences HYPHEN text = 1 /\ occurrences PERIOD text = 0 /\
   parsed = str_of_int (year now) ++ [HYPHEN] ++ text /\ fmt = fmt_Y_m_d_hyphen)
  \/
  (occurrences HYPHEN text = 2 /\ occurrences PERIOD text = 0 /\
   parsed = text /\ fmt = fmt_Y_m_d_hyphen)
  \/
  (occurrences HYPHEN text = 0 /\ occurrences PERIOD text = 2 /\
   parsed = text /\ fmt = fmt_Y_m_d_period).

(* ================================================================== *)
(** ** Sample inputs *)
(* ================================================================== *)

Module Sample.

(** A lower-casing that maps A-Z to a-z and leaves every other character;
    it is what [str.lower] does on the Hangul and ASCII text of the
    examples. *)
Definition ascii_lower (s : pystr) : pystr :=
  map (fun c => if ((65 <=? c) && (c <=? 90))%N then (c + 32)%N else c) s.

Definition feb_1_2024 : datetime := mk_datetime 2024 2 1 0 0 0 0.
Definition jun_1_2024 : datetime := mk_datetime 2024 6 1 12 30 0 0.

(** A listing row with a title link and a date cell, found by the title and
    date selectors of the registry. *)
Definition row (title_text : pystr) (link : option pystr) (date_text : pystr)
  : Element :=
  mk_element (fun sel =>
    if PyStr.eqb sel (u ".title a") || PyStr.eqb sel (u ".subject a")
    then Some (mk_tag title_text link)
    else if PyStr.eqb sel (u ".date") || PyStr.eqb sel (u ".reg-date")
    then Some (mk_tag date_text None)
    else None).

Definition page (rows : list Element) : Response :=
  mk_response (Return tt) (Return (mk_soup (fun _ => rows))).

Definition example_config : Config :=
  mk_config (u "https://example.go.kr/path?x=1") (u "tr") (u ".title a") (u ".date").

Definition empty_db : Firestore := mk_firestore [] 0 0.

Definition moe_url : pystr := u "https://www.moe.go.kr/boardCnts/list.do?boardID=294".

(** The registry's entry for the first site. *)
Definition moe_config : Config :=
  mk_config moe_url (u ".board-list-table tbody tr") (u ".title a") (u ".date").

Definition admission_row : Element :=
  row (u " 2024 수능 전형 일정 안내 ") (Some (u "/view?id=5")) (u "2024-01-20").
Definition university_row : Element :=
  row (u "서울대학교 설명회") (Some (u "https://example.go.kr/view?id=6")) (u "2024.01.25").
Definition schedule_row : Element :=
  row (u "원서 접수 마감") None (u "2024-01-30").
Definition office_row : Element :=
  row (u "교육청 소식") (Some (u "/view?id=8")) (u "공지").
Definition old_row : Element :=
  row (u "지난 공지") (Some (u "/view?id=1")) (u "2023-01-01").

(** Every site answers with the same page of five rows. *)
Definition all_sites_up : Env :=
  mk_env feb_1_2024
         (fun _ => Return (page [admission_row; university_row; schedule_row;
                                 office_row; old_row]))
         (Return tt) (Return tt) (Return tt).

(** The first site of the registry times out, the others answer. *)
Definition first_site_down : Env :=
  mk_env feb_1_2024
         (fun url_ => if PyStr.eqb url_ moe_url
                      then Raise (Exception (u "Read timed out."))
                      else Return (page [admission_row; university_row]))
         (Return tt) (Return tt) (Return tt).

(** The first site lists the same announcement twice, the others are down. *)
Definition repeated_listing : Env :=
  mk_env feb_1_2024
         (fun url_ => if PyStr.eqb url_ moe_url
                      then Return (page [admission_row; admission_row])
                      else Raise (Exception (u "503 Server Error")))
         (Return tt) (Return tt) (Return tt).

(** Firestore cannot be reached. *)
Definition store_down : Env :=
  mk_env feb_1_2024
         (fun _ => Return (page [admission_row]))
         (Raise (Exception (u "DefaultCredentialsError")))
         (Return tt) (Return tt).

(** The batch write is refused. *)
Definition commit_refused : Env :=
  mk_env feb_1_2024
         (fun _ => Return (page [admission_row]))
         (Return tt) (Return tt)
         (Raise (Exception (u "503 Deadline Exceeded"))).

Definition an_article (c : Category) (t : pystr) : Article :=
  mk_article t (u "교육부") (u "https://example.go.kr/view") (u "2024-01-20")
             (extract_content_summary t) c.

Definition one_per_category : list Article :=
  [ an_article major_news (u "수능 안내");
    an_article university_news (u "대학 설명회");
    an_article exam_schedule (u "접수 마감");
    an_article education_office_news (u "교육청 소식") ].

(** The article the row loop makes of [admission_row] at [example_config]. *)
Definition admission_article : Article :=
  mk_article (u "2024 수능 전형 일정 안내") (u "교육부")
             (u "https://example.go.kr/view?id=5") (u "2024-01-20")
             (u "대학수학능력시험 관련 안내사항입니다.") major_news.

Definition late_row : Element :=
  row (u "수능 원서 접수 일정") (Some (u "/view?id=9")) (u "2024-01-31").

(** A listing of eight rows; the last three would all pass the filter. *)
Definition first_five : list Element :=
  [admission_row; university_row; schedule_row; office_row; old_row].
Definition last_three : list Element := [late_row; late_row; admission_row].

Definition eight_row_site : Env :=
  mk_env feb_1_2024
         (fun _ => Return (page (first_five ++ last_three)))
         (Return tt) (Return tt) (Return tt).

(** The collection after [one_per_category] was saved into [empty_db]. *)
Definition stored_one_per_category : Firestore :=
  mk_firestore
    [ mk_doc 0 (an_article major_news (u "수능 안내")) 0;
      mk_doc 1 (an_article university_news (u "대학 설명회")) 0;
      mk_doc 2 (an_article exam_schedule (u "접수 마감")) 0;
      mk_doc 3 (an_article education_office_news (u "교육청 소식")) 0 ]
    4 1.

(** The collection after a pass over [eight_row_site] from [empty_db]. *)
Definition after_eight_row_pass : Firestore :=
  Eval vm_compute in
    match weekly_news_crawler ascii_lower eight_row_site empty_db with
    | Return r => snd r
    | Raise _ => empty_db
    end.

(** Every site is down and the store refuses queries and writes. *)
Definition nothing_to_store : Env :=
  mk_env feb_1_2024
         (fun _ => Raise (Exception (u "Connection refused")))
         (Return tt)
         (Raise (Exception (u "503 Unavailable")))
         (Raise (Exception (u "503 Unavailable"))).

End Sample.

(* ================================================================== *)
(** * Properties *)
(* ================================================================== *)

Unset Implicit Arguments.

(** ** Strings *)

Lemma pystr_eqb_eq : forall s t, PyStr.eqb s t = true <-> s = t.
Proof.
  induction s as [|c s IH]; destruct t as [|d t]; simpl; split;
    try congruence; try reflexivity.
  - rewrite andb_true_iff, N.eqb_eq, IH. intros [-> ->]. reflexivity.
  - intros H. injection H as -> ->.
    rewrite N.eqb_refl. simpl. apply IH. reflexivity.
Qed.

Lemma pystr_eqb_refl : forall s, PyStr.eqb s s = true.
Proof. intros s. apply pystr_eqb_eq. reflexivity. Qed.

Lemma startswith_prefix :
  forall p s, startswith s p = true <-> exists r, s = p ++ r.
Proof.
  induction p as [|d p IH]; intros s.
  - destruct s; simpl; split; eauto.
  - destruct s as [|c s]; simpl.
    + split; [discriminate | intros [r H]; discriminate].
    + rewrite andb_true_iff, N.eqb_eq, IH. split.
      * intros [-> [r ->]]. exists r. reflexivity.
      * intros [r H]. injection H as -> ->. eauto.
Qed.

Lemma contains_unfold :
  forall sub s,
    contains sub s =
    startswith s sub || match s with [] => false | _ :: s' => contains sub s' end.
Proof. intros sub [|c s]; reflexivity. Qed.

Lemma contains_substring :
  forall sub s, contains sub s = true <-> is_substring sub s.
Proof.
  intros sub s. split.
  - induction s as [|c s IH]; cbn [contains]; rewrite orb_true_iff;
      intros [H|H].
    + apply startswith_prefix in H. destruct H as [r H].
      exists [], r. exact H.
    + discriminate.
    + apply startswith_prefix in H. destruct H as [r H].
      exists [], r. exact H.
    + destruct (IH H) as (pre & post & ->).
      exists (c :: pre), post. reflexivity.
  - intros (pre & post & ->).
    induction pre as [|c pre IH].
    + assert (H : startswith (sub ++ post) sub = true)
        by (apply startswith_prefix; eauto).
      cbn [app]. rewrite contains_unfold, H. reflexivity.
    + cbn [contains app]. rewrite IH. apply orb_true_r.
Qed.

Lemma contains_not_substring :
  forall sub s, contains sub s = false <-> ~ is_substring sub s.
Proof.
  intros sub s. rewrite <- contains_substring.
  destruct (contains sub s); split; congruence.
Qed.

Lemma any_word_in_has_word :
  forall words text, any_word_in words text = true <-> has_word words text.
Proof.
  intros words text. unfold any_word_in, has_word.
  rewrite existsb_exists. split; intros (w & Hin & H); exists w; split; auto;
    apply contains_substring; exact H.
Qed.

Lemma any_word_in_no_word :
  forall words text, any_word_in words text = false <-> ~ has_word words text.
Proof.
  intros words text. rewrite <- any_word_in_has_word.
  destruct (any_word_in words text); split; congruence.
Qed.

(** ** Classifier *)

Lemma category_name_injective :
  forall a b, category_name a = category_name b -> a = b.
Proof. intros [] []; intros H; solve [reflexivity | vm_compute in H; discriminate H]. Qed.

(** C3. For every title the classifier returns the one category the rule
    gives for the lower-cased title: [major_news] when it contains an
    admissions term (whatever else it contains), otherwise
    [university_news] when it contains a university term, otherwise
    [exam_schedule] when it contains a schedule term, otherwise
    [education_office_news]; the category is a function of the title. *)
Theorem C3_classify_article_follows_rule :
  forall (lower : pystr -> pystr) (title : pystr) (c : Category),
    classify_article lower title = c <-> category_rule (lower title) c.
Proof.
  intros lower title c. unfold classify_article.
  destruct (any_word_in ADMISSION_WORDS (lower title)) eqn:HA;
    [ apply any_word_in_has_word in HA | apply any_word_in_no_word in HA ].
  { destruct c; cbn [category_rule];
      (split; [ intros E; try discriminate E; tauto
              | intros R; try reflexivity; exfalso; tauto ]). }
  destruct (any_word_in UNIVERSITY_WORDS (lower title)) eqn:HU;
    [ apply any_word_in_has_word in HU | apply any_word_in_no_word in HU ].
  { destruct c; cbn [category_rule];
      (split; [ intros E; try discriminate E; tauto
              | intros R; try reflexivity; exfalso; tauto ]). }
  destruct (any_word_in SCHEDULE_WORDS (lower title)) eqn:HS;
    [ apply any_word_in_has_word in HS | apply any_word_in_no_word in HS ];
    destruct c; cbn [category_rule];
      (split; [ intros E; try discriminate E; tauto
              | intros R; try reflexivity; exfalso; tauto ]).
Qed.

(** The title of the specification's example has an admissions term and a
    university term, and is [major_news]. *)
Lemma C3_witness :
  category_rule (Sample.ascii_lower (u "서울대학교 수능 전형 안내")) major_news /\
  has_word UNIVERSITY_WORDS (Sample.ascii_lower (u "서울대학교 수능 전형 안내")) /\
  classify_article Sample.ascii_lower (u "서울대학교 수능 전형 안내") = major_news.
Proof.
  assert (HA : category_rule
                 (Sample.ascii_lower (u "서울대학교 수능 전형 안내")) major_news)
    by (apply any_word_in_has_word; vm_compute; reflexivity).
  split; [exact HA | split].
  - apply any_word_in_has_word. vm_compute. reflexivity.
  - exact (proj2 (C3_classify_article_follows_rule
                    Sample.ascii_lower (u "서울대학교 수능 전형 안내") major_news) HA).
Defined.

(** ** Summarizer *)

Lemma first_summary_earliest :
  forall (pre : list (pystr * pystr)) keyword summary post title,
    is_substring keyword title ->
    (forall k s, In (k, s) pre -> ~ is_substring k title) ->
    first_summary (pre ++ (keyword, summary) :: post) title = Some summary.
Proof.
  induction pre as [|[k s] pre IH]; intros keyword summary post title Hk Hpre;
    cbn [first_summary app].
  - apply contains_substring in Hk. rewrite Hk. reflexivity.
  - assert (Hno : contains k title = false).
    { apply contains_not_substring. apply (Hpre k s). left. reflexivity. }
    rewrite Hno. apply IH; [exact Hk |].
    intros k' s' Hin. apply (Hpre k' s'). right. exact Hin.
Qed.

Lemma first_summary_no_keyword :
  forall (keywords : list (pystr * pystr)) (title : pystr),
    (forall k s, In (k, s) keywords -> ~ is_substring k title) ->
    first_summary keywords title = None.
Proof.
  induction keywords as [|[k s] keywords IH]; intros title Hno;
    cbn [first_summary]; [reflexivity|].
  assert (Hk : contains k title = false).
  { apply contains_not_substring. apply (Hno k s). left. reflexivity. }
  rewrite Hk. apply IH. intros k' s' Hin. apply (Hno k' s'). right. exact Hin.
Qed.

(** Among the keywords that occur in a title there is an earliest one. *)
Lemma earliest_keyword_exists :
  forall (keywords : list (pystr * pystr)) (title : pystr),
    (exists k s, In (k, s) keywords /\ is_substring k title) ->
    exists pre keyword summary post,
      keywords = pre ++ (keyword, summary) :: post /\
      is_substring keyword title /\
      (forall k s, In (k, s) pre -> ~ is_substring k title).
Proof.
  induction keywords as [|[k0 s0] keywords IH]; intros title (k & s & Hin & Hk).
  - destruct Hin.
  - destruct (contains k0 title) eqn:H0.
    + exists [], k0, s0, keywords. split; [reflexivity|]. split.
      * apply contains_substring. exact H0.
      * intros k' s' [].
    + destruct Hin as [Heq|Hin].
      * injection Heq as -> ->. apply contains_substring in Hk. congruence.
      * destruct (IH title) as (pre & kw & sm & post & -> & Hkw & Hpre).
        { exists k, s. split; assumption. }
        exists ((k0, s0) :: pre), kw, sm, post. split; [reflexivity|].
        split; [exact Hkw|].
        intros k' s' [Heq|Hin'].
        -- injection Heq as <- <-. apply contains_not_substring. exact H0.
        -- apply (Hpre k' s'). exact Hin'.
Qed.

(** C4. A title in which some summarizer keyword occurs gets the sentence
    of the earliest-declared keyword that occurs in it; a title in which
    none occurs gets the fallback sentence. *)
Theorem C4_extract_content_summary_first_keyword :
  forall title : pystr,
    ((exists k s, In (k, s) SUMMARY_KEYWORDS /\ is_substring k title) ->
     exists pre keyword summary post,
       SUMMARY_KEYWORDS = pre ++ (keyword, summary) :: post /\
       is_substring keyword title /\
       (forall k s, In (k, s) pre -> ~ is_substring k title) /\
       extract_content_summary title = summary) /\
    ((forall k s, In (k, s) SUMMARY_KEYWORDS -> ~ is_substring k title) ->
     extract_content_summary title = FALLBACK_SUMMARY).
Proof.
  intros title. split.
  - intros Hex.
    destruct (earliest_keyword_exists _ _ Hex)
      as (pre & keyword & summary & post & Heq & Hk & Hpre).
    exists pre, keyword, summary, post.
    repeat split; try assumption.
    unfold extract_content_summary. rewrite Heq.
    rewrite (first_summary_earliest _ _ summary post _ Hk Hpre). reflexivity.
  - intros Hno. unfold extract_content_summary.
    rewrite (first_summary_no_keyword _ _ Hno). reflexivity.
Qed.

(** The specification's example: both "수능" and "전형" occur, "수능" is
    declared first. *)
Lemma C4_witness :
  (exists k s, In (k, s) SUMMARY_KEYWORDS /\
               is_substring k (u "2024 수능 전형 일정 안내")) /\
  (exists pre keyword summary post,
     SUMMARY_KEYWORDS = pre ++ (keyword, summary) :: post /\
     is_substring keyword (u "2024 수능 전형 일정 안내") /\
     (forall k s, In (k, s) pre -> ~ is_substring k (u "2024 수능 전형 일정 안내")) /\
     extract_content_summary (u "2024 수능 전형 일정 안내") = summary) /\
  extract_content_summary (u "2024 수능 전형 일정 안내")
    = u "대학수학능력시험 관련 안내사항입니다.".
Proof.
  assert (Hex : exists k s, In (k, s) SUMMARY_KEYWORDS /\
                            is_substring k (u "2024 수능 전형 일정 안내")).
  { exists (u "전형"), (u "대학 입학전형 변경 또는 안내사항입니다."). split.
    - right. right. left. reflexivity.
    - apply contains_substring. vm_compute. reflexivity. }
  split; [exact Hex | split].
  - exact (proj1 (C4_extract_content_summary_first_keyword
                    (u "2024 수능 전형 일정 안내")) Hex).
  - vm_compute. reflexivity.
Defined.

(** ** Recency filter *)

(** C5. At any moment of 2024-02-01 the filter accepts "2024-01-15",
    rejects "2023-01-01" and accepts the text "공지", which has no date in
    it. *)
Theorem C5_is_recent_article_examples :
  forall h mi s us : Z,
    let now := mk_datetime 2024 2 1 h mi s us in
    is_recent_article now (u "2024-01-15") = true /\
    is_recent_article now (u "2023-01-01") = false /\
    is_recent_article now (u "공지") = true.
Proof.
  intros h mi s us now. subst now.
  split; [| split]; vm_compute; reflexivity.
Qed.

(** C2. Evaluation at the month-day text "01.15" on 2024-06-01 12:30: the
    text has two period-delimited pieces, the year is put in front with a
    hyphen, "2024-01.15" matches none of the four formats, and the filter
    falls back to [true], although 2024-01-15 is before the 2024-05-02 that
    lies thirty days back; the hyphen text "01-15" is parsed and rejected. *)
Theorem C2_period_month_day_falls_back :
  let now := Sample.jun_1_2024 in
  clean_date_text (u "01.15") = u "01.15" /\
  List.length (split PERIOD (u "01.15")) = 2 /\
  prepend_year now (u "01.15") = u "2024-01.15" /\
  Forall (fun fmt => strptime (u "2024-01.15") fmt = None) DATE_FORMATS /\
  is_recent_article now (u "01.15") = true /\
  sub_days now 30 = Some (mk_datetime 2024 5 2 12 30 0 0) /\
  Datetime.ge (mk_datetime 2024 1 15 0 0 0 0) (mk_datetime 2024 5 2 12 30 0 0) = false /\
  is_recent_article now (u "01-15") = false.
Proof.
  cbv zeta.
  split; [vm_compute; reflexivity |].
  split; [vm_compute; reflexivity |].
  split; [vm_compute; reflexivity |].
  split.
  { unfold DATE_FORMATS.
    constructor; [vm_compute; reflexivity |].
    constructor; [vm_compute; reflexivity |].
    constructor; [vm_compute; reflexivity |].
    constructor; [vm_compute; reflexivity | constructor]. }
  split; [vm_compute; reflexivity |].
  split; [vm_compute; reflexivity |].
  split; vm_compute; reflexivity.
Qed.

(** ** Listing extractor *)

Lemma crawl_education_office_fetched :
  forall lower env office_name config soup,
    fetch_page env config = Return soup ->
    crawl_education_office lower env office_name config =
    Return (extract_articles lower env office_name config (candidate_rows soup config)).
Proof.
  intros lower env office_name config soup H.
  unfold crawl_education_office. rewrite H. reflexivity.
Qed.

Lemma firstn_exact :
  forall (A : Type) (first rest : list A) (n : nat),
    List.length first = n -> firstn n (first ++ rest) = first.
Proof.
  intros A first rest n <-.
  induction first as [|x first IH]; cbn [List.length firstn app].
  - reflexivity.
  - rewrite IH. reflexivity.
Qed.

(** C6. When the row selector finds the five elements [first] followed by
    any further elements [rest], the candidate rows are exactly [first], in
    document order, and the articles of the source are those the row loop
    gets from [first]: nothing of [rest] enters the result. *)
Theorem C6_only_first_five_rows_are_candidates :
  forall lower env office_name config soup (first rest : list Element),
    fetch_page env config = Return soup ->
    select soup (selector config) = first ++ rest ->
    List.length first = 5 ->
    candidate_rows soup config = first /\
    crawl_education_office lower env office_name config =
    Return (extract_articles lower env office_name config first).
Proof.
  intros lower env office_name config soup first rest Hfetch Hsel Hlen.
  assert (Hrows : candidate_rows soup config = first).
  { unfold candidate_rows. rewrite Hsel. apply firstn_exact. exact Hlen. }
  split; [exact Hrows |].
  rewrite (crawl_education_office_fetched _ _ _ _ _ Hfetch), Hrows. reflexivity.
Qed.

(** ** Link resolution *)

Lemma split_piece :
  forall sep a b,
    ~ In sep a -> split sep (a ++ sep :: b) = a :: split sep b.
Proof.
  intros sep a b. induction a as [|c a IH]; intros Hno; cbn [split app].
  - rewrite N.eqb_refl. reflexivity.
  - assert (Hc : (c =? sep)%N = false).
    { apply N.eqb_neq. intros ->. apply Hno. left. reflexivity. }
    rewrite Hc, IH; [reflexivity |].
    intros Hin. apply Hno. right. exact Hin.
Qed.

(** The first three ['/']-pieces of [scheme//host/path], joined again, are
    [scheme//host]. *)
Lemma base_url_scheme_host :
  forall scheme host path,
    ~ In SLASH scheme -> ~ In SLASH host ->
    join [SLASH] (firstn 3 (split SLASH (scheme ++ [SLASH; SLASH] ++ host ++ SLASH :: path)))
    = scheme ++ [SLASH; SLASH] ++ host.
Proof.
  intros scheme host path Hs Hh.
  cbn [app]. rewrite (split_piece SLASH scheme _ Hs).
  rewrite (split_piece SLASH [] (host ++ SLASH :: path) (fun H => H)
           : split SLASH (SLASH :: host ++ SLASH :: path) = _).
  rewrite (split_piece SLASH host _ Hh).
  destruct (split SLASH path); reflexivity.
Qed.

Lemma resolve_link_relative :
  forall config_url l,
    l <> [] -> startswith l (u "http") = false ->
    resolve_link config_url l
    = join [SLASH] (firstn 3 (split SLASH config_url)) ++ l.
Proof.
  intros config_url l Hne Hrel. unfold resolve_link.
  destruct l as [|c l]; [congruence |].
  rewrite Hrel. reflexivity.
Qed.

Lemma extract_article_link :
  forall lower env office_name config element title_element article,
    select_one element (title_selector config) = Some title_element ->
    extract_article lower env office_name config element = Some article ->
    link article =
    resolve_link (url config)
      (match href title_element with Some h => h | None => [] end).
Proof.
  intros lower env office_name config element title_element article Hsel.
  unfold extract_article. rewrite Hsel.
  destruct (is_recent_article _ _); intros H; [| discriminate H].
  injection H as <-. reflexivity.
Qed.

(** C7 (amended). A row link that is not empty and does not start with
    ['http'] is stored as the first three ['/']-pieces of the source's
    endpoint, joined by ['/'], followed by the row link; an empty link (a
    title element without [href]) is stored empty; the endpoint
    [https://example.go.kr/path?x=1] and the row link [/view?id=5] give
    [https://example.go.kr/view?id=5]. *)
Theorem C7_relative_link_resolution :
  forall lower env office_name config element title_element article,
    select_one element (title_selector config) = Some title_element ->
    extract_article lower env office_name config element = Some article ->
    let l := match href title_element with Some h => h | None => [] end in
    (l <> [] -> startswith l (u "http") = false ->
     link article = join [SLASH] (firstn 3 (split SLASH (url config))) ++ l) /\
    (l = [] -> link article = []) /\
    resolve_link (u "https://example.go.kr/path?x=1") (u "/view?id=5")
    = u "https://example.go.kr/view?id=5".
Proof.
  intros lower env office_name config element title_element article
         Hsel Hart l.
  pose proof (extract_article_link _ _ _ _ _ _ _ Hsel Hart) as Hlink.
  fold l in Hlink. split; [| split].
  - intros Hne Hrel. rewrite Hlink. apply resolve_link_relative; assumption.
  - intros Hempty. rewrite Hlink, Hempty. reflexivity.
  - vm_compute. reflexivity.
Qed.

(** ** Failure isolation *)

Lemma crawl_offices_flat_map :
  forall lower env offices acc,
    crawl_offices lower env offices acc
    = acc ++ flat_map (articles_of lower env) offices.
Proof.
  intros lower env offices.
  induction offices as [|[office_name config] rest IH]; intros acc;
    cbn [crawl_offices flat_map].
  - rewrite app_nil_r. reflexivity.
  - unfold articles_of at 1. cbn [fst snd].
    destruct (crawl_education_office lower env office_name config) as [articles|e];
      rewrite IH.
    + rewrite app_assoc. reflexivity.
    + reflexivity.
Qed.

Lemma crawl_education_office_never_raises :
  forall lower env office_name config,
    exists articles,
      crawl_education_office lower env office_name config = Return articles.
Proof.
  intros lower env office_name config. unfold crawl_education_office.
  destruct (fetch_page env config) as [soup|e]; cbn [bind try_except]; eauto.
Qed.

Lemma crawl_education_office_failed_fetch :
  forall lower env office_name config e,
    fetch_page env config = Raise e ->
    crawl_education_office lower env office_name config = Return [].
Proof.
  intros lower env office_name config e H.
  unfold crawl_education_office. rewrite H. reflexivity.
Qed.

Lemma stage_articles_returns :
  forall env db articles fresh batch,
    query_get env = Return tt ->
    exists staged, stage_articles env db articles fresh batch = Return staged.
Proof.
  intros env db articles. induction articles as [|article rest IH];
    intros fresh batch Hq; cbn [stage_articles].
  - eauto.
  - unfold existing_docs. rewrite Hq. cbn [bind].
    destruct (firstn 1 _); apply IH; exact Hq.
Qed.

Lemma save_articles_returns :
  forall env db articles,
    query_get env = Return tt -> batch_commit env = Return tt ->
    exists db', save_articles_to_firestore env db articles = Return db'.
Proof.
  intros env db articles Hq Hc. unfold save_articles_to_firestore.
  destruct (stage_articles_returns env db articles (next_id db) [] Hq)
    as [staged ->].
  cbn [bind]. unfold commit. rewrite Hc. cbn [bind]. eauto.
Qed.

(** C9. When fetching or parsing one source of the registry raises
    (network error, timeout, a status [raise_for_status] rejects, or the
    parser), that source yields no article, the articles of the pass are those of the other
    sources in registry order, and, the store being reachable, the
    scheduled entry point returns a success record that counts them. *)
Theorem C9_failed_source_is_isolated :
  forall lower env db pre office_name config post e,
    EDUCATION_OFFICES = pre ++ (office_name, config) :: post ->
    fetch_page env config = Raise e ->
    firestore_client env = Return tt ->
    query_get env = Return tt ->
    batch_commit env = Return tt ->
    crawl_education_office lower env office_name config = Return [] /\
    crawl_offices lower env EDUCATION_OFFICES []
    = flat_map (articles_of lower env) (pre ++ post) /\
    exists db',
      weekly_news_crawler lower env db
      = Return (status_success
                  (List.length (flat_map (articles_of lower env) (pre ++ post)))
                  (now env), db').
Proof.
  intros lower env db pre office_name config post e Hreg Hfetch Hcl Hq Hc.
  assert (Hnone : crawl_education_office lower env office_name config = Return [])
    by (eapply crawl_education_office_failed_fetch; exact Hfetch).
  assert (Hall : crawl_offices lower env EDUCATION_OFFICES []
                 = flat_map (articles_of lower env) (pre ++ post)).
  { rewrite Hreg, crawl_offices_flat_map. cbn [app].
    rewrite !flat_map_app. cbn [flat_map].
    unfold articles_of at 2. cbn [fst snd]. rewrite Hnone. reflexivity. }
  split; [exact Hnone | split; [exact Hall |]].
  unfold weekly_news_crawler, crawl_pass.
  rewrite Hcl, Hall. cbn [bind].
  destruct (flat_map (articles_of lower env) (pre ++ post)) as [|a rest] eqn:Hlist.
  - exists db. reflexivity.
  - destruct (save_articles_returns env db (a :: rest) Hq Hc) as [db' ->].
    exists db'. reflexivity.
Qed.

(** ** Manual trigger *)

Lemma weekly_news_crawler_never_raises :
  forall lower env db,
    exists record db', weekly_news_crawler lower env db = Return (record, db').
Proof.
  intros lower env db. unfold weekly_news_crawler.
  destruct (crawl_pass lower env db) as [[record db']|e]; cbn [try_except]; eauto.
Qed.

(** C10. For a request that is not OPTIONS the manual trigger answers 200
    whatever the pass does; [weekly_news_crawler] always returns a record,
    and when its [try] block raises, the record is the error record with
    the exception's text, which the manual trigger sends as the body of its
    200 answer. *)
Theorem C10_manual_crawl_answers_200_on_crawl_failure :
  forall lower env db method,
    PyStr.eqb method (u "OPTIONS") = false ->
    status (fst (manual_crawl lower env db method)) = 200%Z /\
    (exists record db',
        weekly_news_crawler lower env db = Return (record, db')) /\
    (forall e,
        crawl_pass lower env db = Raise e ->
        weekly_news_crawler lower env db
        = Return (status_error (str_exn e) (now env), db) /\
        manual_crawl lower env db method
        = (mk_http (body_status (status_error (str_exn e) (now env))) 200
                   CORS_HEADERS, db)).
Proof.
  intros lower env db method Hm.
  destruct (weekly_news_crawler_never_raises lower env db)
    as (record & db' & Hw).
  split; [| split].
  - unfold manual_crawl. rewrite Hm, Hw. reflexivity.
  - eauto.
  - intros e He.
    assert (Hw' : weekly_news_crawler lower env db
                  = Return (status_error (str_exn e) (now env), db)).
    { unfold weekly_news_crawler. rewrite He. reflexivity. }
    split; [exact Hw' |].
    unfold manual_crawl. rewrite Hm, Hw'. reflexivity.
Qed.

(** ** Query service *)

Lemma comes_before_newer :
  forall a b, comes_before a b = true -> newer_first a b.
Proof.
  intros a b. unfold comes_before, newer_first.
  rewrite orb_true_iff, andb_true_iff, Z.ltb_lt, Z.eqb_eq. lia.
Qed.

Lemma not_comes_before_older :
  forall a b, comes_before a b = false -> newer_first b a.
Proof.
  intros a b. unfold comes_before, newer_first.
  rewrite orb_false_iff, Z.ltb_ge. lia.
Qed.

Lemma insert_doc_permutation :
  forall d docs, Permutation (d :: docs) (insert_doc d docs).
Proof.
  intros d docs. induction docs as [|x rest IH]; cbn [insert_doc].
  - apply Permutation_refl.
  - destruct (comes_before d x).
    + apply Permutation_refl.
    + eapply perm_trans; [apply perm_swap |]. apply perm_skip. exact IH.
Qed.

Lemma order_by_permutation :
  forall docs, Permutation docs (order_by_created_at_desc docs).
Proof.
  induction docs as [|d docs IH]; cbn [order_by_created_at_desc fold_right].
  - apply Permutation_refl.
  - eapply perm_trans; [apply perm_skip; exact IH |].
    apply insert_doc_permutation.
Qed.

Lemma insert_doc_sorted :
  forall d docs,
    StronglySorted newer_first docs ->
    StronglySorted newer_first (insert_doc d docs).
Proof.
  intros d docs. induction docs as [|x rest IH]; intros Hs; cbn [insert_doc].
  - constructor; constructor.
  - inversion Hs as [|y l Hrest Hall]; subst.
    destruct (comes_before d x) eqn:Hcmp.
    + apply comes_before_newer in Hcmp. constructor; [exact Hs |].
      constructor; [exact Hcmp |].
      eapply Forall_impl; [| exact Hall].
      intros y Hy. unfold newer_first in *. lia.
    + apply not_comes_before_older in Hcmp. constructor; [apply IH; exact Hrest |].
      apply Forall_forall. intros y Hy.
      apply (Permutation_in _ (Permutation_sym (insert_doc_permutation d rest))) in Hy.
      destruct Hy as [<- | Hy]; [exact Hcmp |].
      rewrite Forall_forall in Hall. apply Hall. exact Hy.
Qed.

Lemma order_by_sorted :
  forall docs, StronglySorted newer_first (order_by_created_at_desc docs).
Proof.
  induction docs as [|d docs IH]; cbn [order_by_created_at_desc fold_right].
  - constructor.
  - apply insert_doc_sorted. exact IH.
Qed.

Lemma firstn_sorted :
  forall (R : Doc -> Doc -> Prop) n docs,
    StronglySorted R docs -> StronglySorted R (firstn n docs).
Proof.
  intros R n. induction n as [|n IH]; intros docs Hs; cbn [firstn].
  - constructor.
  - destruct docs as [|x rest]; [constructor |].
    inversion Hs as [|y l Hrest Hall]; subst.
    constructor; [apply IH; exact Hrest |].
    apply Forall_forall. intros y Hy. rewrite Forall_forall in Hall.
    apply Hall. rewrite <- (firstn_skipn n rest). apply in_or_app. left. exact Hy.
Qed.

Lemma sorted_head_before_tail :
  forall (R : Doc -> Doc -> Prop) n docs a b,
    StronglySorted R docs ->
    In a (firstn n docs) -> In b (skipn n docs) -> R a b.
Proof.
  intros R n. induction n as [|n IH]; intros docs a b Hs Ha Hb.
  - destruct Ha.
  - destruct docs as [|x rest]; [destruct Ha |].
    inversion Hs as [|y l Hrest Hall]; subst.
    cbn [firstn skipn] in Ha, Hb. destruct Ha as [<- | Ha].
    + rewrite Forall_forall in Hall. apply Hall.
      rewrite <- (firstn_skipn n rest). apply in_or_app. right. exact Hb.
    + apply (IH rest); assumption.
Qed.

Lemma category_eqb_eq :
  forall a b, category_eqb a b = true <-> a = b.
Proof. intros [] []; cbn; split; congruence. Qed.

Lemma where_category_In :
  forall c docs d,
    In d (where_category c docs) <-> In d docs /\ category (fields d) = c.
Proof.
  intros c docs d. unfold where_category.
  rewrite filter_In, category_eqb_eq. reflexivity.
Qed.

Lemma news_data_lookup :
  forall db c docs,
    In (c, docs) (news_data db) -> docs = latest_of_category db c.
Proof.
  intros db c docs H. unfold news_data in H.
  apply in_map_iff in H. destruct H as (c' & Heq & _).
  injection Heq as -> ->. reflexivity.
Qed.

Lemma latest_of_category_length :
  forall db c,
    List.length (latest_of_category db c)
    = Nat.min 5 (List.length (where_category c (news db))).
Proof.
  intros db c. unfold latest_of_category.
  rewrite length_firstn.
  rewrite <- (Permutation_length (order_by_permutation (where_category c (news db)))).
  reflexivity.
Qed.

(** X18. The mapping [news_data] that the query loop fills, before it is
    rendered, has the four categories as keys.  The list of a
    category holds at most five documents, all of them stored and of that
    category, newest first, and no stored document of the category that is
    left out is newer than one that is listed; it holds all of them when
    there are at most five.  With exactly one stored article per category,
    every list has exactly one entry. *)
Theorem X18_news_data_latest_five_per_category :
  forall db : Firestore,
    map fst (news_data db) = NEWS_CATEGORIES /\
    (forall c docs,
        In (c, docs) (news_data db) ->
        List.length docs <= 5 /\
        List.length docs = Nat.min 5 (List.length (where_category c (news db))) /\
        (forall d, In d docs -> In d (news db) /\ category (fields d) = c) /\
        StronglySorted newer_first docs /\
        (forall d d',
            In d docs -> In d' (news db) -> category (fields d') = c ->
            ~ In d' docs -> newer_first d d')) /\
    ((forall c, List.length (where_category c (news db)) = 1) ->
     forall c docs, In (c, docs) (news_data db) -> List.length docs = 1).
Proof.
  intros db. split; [reflexivity | split].
  - intros c docs Hin. apply news_data_lookup in Hin. subst docs.
    pose proof (latest_of_category_length db c) as Hlen.
    split; [rewrite Hlen; apply Nat.le_min_l |].
    split; [exact Hlen |].
    unfold latest_of_category.
    pose proof (order_by_permutation (where_category c (news db))) as Hperm.
    pose proof (order_by_sorted (where_category c (news db))) as Hsorted.
    set (sorted := order_by_created_at_desc (where_category c (news db))) in *.
    split; [| split].
    + intros d Hd. apply where_category_In.
      apply (Permutation_in _ (Permutation_sym Hperm)).
      rewrite <- (firstn_skipn 5 sorted). apply in_or_app. left. exact Hd.
    + apply firstn_sorted. exact Hsorted.
    + intros d d' Hd Hd' Hc Hout.
      apply (sorted_head_before_tail newer_first 5 sorted); [exact Hsorted | exact Hd |].
      assert (Hs : In d' sorted).
      { apply (Permutation_in _ Hperm). apply where_category_In. split; assumption. }
      rewrite <- (firstn_skipn 5 sorted) in Hs.
      apply in_app_or in Hs. destruct Hs as [Hs | Hs]; [contradiction | exact Hs].
  - intros Hone c docs Hin. apply news_data_lookup in Hin. subst docs.
    rewrite latest_of_category_length, Hone. reflexivity.
Qed.

(** ** Deduplicating store writer *)

Lemma same_key_eq :
  forall a b, same_key a b = true <-> key a = key b.
Proof.
  intros a b. unfold same_key, key.
  rewrite andb_true_iff, !pystr_eqb_eq. split.
  - intros [-> ->]. reflexivity.
  - intros H. injection H as -> ->. split; reflexivity.
Qed.

Lemma is_new_not_stored :
  forall db article, is_new db article = true -> ~ In (key article) (store_keys db).
Proof.
  intros db article Hnew Hin. unfold store_keys in Hin.
  apply in_map_iff in Hin. destruct Hin as (d & Hk & Hd).
  unfold is_new in Hnew. apply negb_true_iff in Hnew.
  assert (Hex : existsb (fun d => same_key (fields d) article) (news db) = true).
  { apply existsb_exists. exists d. split; [exact Hd |].
    apply same_key_eq. exact Hk. }
  congruence.
Qed.

Lemma first_existing_none :
  forall db article,
    firstn 1 (filter (fun d => same_key (fields d) article) (news db)) = []
    <-> is_new db article = true.
Proof.
  intros db article. unfold is_new. rewrite negb_true_iff.
  induction (news db) as [|d docs IH]; cbn [filter existsb].
  - split; reflexivity.
  - destruct (same_key (fields d) article); cbn [orb firstn].
    + split; discriminate.
    + exact IH.
Qed.

(** The loop stages exactly the candidates that are new to the collection
    as it was before the pass, in order, under consecutive identities. *)
Lemma stage_articles_batch :
  forall env db articles fresh batch staged,
    stage_articles env db articles fresh batch = Return staged ->
    map snd (snd staged) = map snd batch ++ filter (is_new db) articles.
Proof.
  intros env db articles. induction articles as [|article rest IH];
    intros fresh batch staged; cbn [stage_articles filter].
  - intros H. injection H as <-. cbn [snd]. rewrite app_nil_r. reflexivity.
  - unfold existing_docs. destruct (query_get env) as [[]|e]; cbn [bind];
      [| discriminate].
    pose proof (first_existing_none db article) as Hnew.
    destruct (firstn 1 _) as [|d ds].
    + rewrite (proj1 Hnew eq_refl). intros H. apply IH in H. rewrite H.
      rewrite map_app. cbn [map snd]. rewrite <- app_assoc. reflexivity.
    + destruct (is_new db article).
      * destruct Hnew as [_ Hnew]. discriminate (Hnew eq_refl).
      * apply IH.
Qed.

Lemma save_articles_keys :
  forall env db articles db',
    save_articles_to_firestore env db articles = Return db' ->
    store_keys db' = store_keys db ++ map key (filter (is_new db) articles).
Proof.
  intros env db articles db'. unfold save_articles_to_firestore.
  destruct (stage_articles env db articles (next_id db) []) as [staged|e] eqn:Hst;
    cbn [bind]; [| discriminate].
  apply stage_articles_batch in Hst. cbn [map app] in Hst.
  unfold commit. destruct (batch_commit env) as [[]|e]; cbn [bind]; [| discriminate].
  intros H. injection H as <-. unfold store_keys. cbn [news].
  rewrite map_app, map_map. cbn [fields].
  rewrite <- Hst, map_map. reflexivity.
Qed.

Lemma NoDup_map_filter :
  forall (A B : Type) (f : A -> B) (p : A -> bool) (l : list A),
    NoDup (map f l) -> NoDup (map f (filter p l)).
Proof.
  intros A B f p l. induction l as [|x l IH]; cbn [map filter]; intros H.
  - constructor.
  - inversion H as [|y ys Hnotin Hrest]; subst.
    destruct (p x); cbn [map]; [| apply IH; exact Hrest].
    constructor; [| apply IH; exact Hrest].
    intros Hin. apply Hnotin. apply in_map_iff in Hin.
    destruct Hin as (z & Hz & Hzin). apply filter_In in Hzin.
    apply in_map_iff. exists z. tauto.
Qed.

(** With candidates of pairwise different keys, a pass keeps the keys of
    the collection pairwise different. *)
Lemma save_articles_distinct_candidates :
  forall env db articles db',
    NoDup (store_keys db) ->
    NoDup (map key articles) ->
    save_articles_to_firestore env db articles = Return db' ->
    NoDup (store_keys db').
Proof.
  intros env db articles db' Hstore Hcand Hsave.
  rewrite (save_articles_keys _ _ _ _ Hsave).
  apply NoDup_app; [exact Hstore | apply NoDup_map_filter; exact Hcand |].
  intros k Hk Hin. apply in_map_iff in Hin. destruct Hin as (a & <- & Ha).
  apply filter_In in Ha. destruct Ha as [_ Hnew].
  exact (is_new_not_stored _ _ Hnew Hk).
Qed.

(** A candidate that is new and comes twice in the list is staged twice. *)
Lemma save_articles_repeated_candidate :
  forall env db article db',
    is_new db article = true ->
    save_articles_to_firestore env db [article; article] = Return db' ->
    store_keys db' = store_keys db ++ [key article; key article].
Proof.
  intros env db article db' Hnew Hsave.
  rewrite (save_articles_keys _ _ _ _ Hsave). cbn [filter].
  rewrite Hnew. reflexivity.
Qed.

(** C1. Evaluation on the empty collection with the same candidate twice:
    both checks look at the collection before the batch is written, both
    find nothing, and the commit writes two documents with the same
    (title, source).  The same happens through the whole pass when a
    listing page shows one announcement in two rows. *)
Theorem C1_repeated_candidate_is_stored_twice :
  let a := Sample.an_article major_news (u "수능 안내") in
  NoDup (store_keys Sample.empty_db) /\
  save_articles_to_firestore Sample.all_sites_up Sample.empty_db [a; a]
  = Return (mk_firestore [mk_doc 0 a 0; mk_doc 1 a 0] 2 1) /\
  store_keys (mk_firestore [mk_doc 0 a 0; mk_doc 1 a 0] 2 1) = [key a; key a] /\
  exists db',
    weekly_news_crawler Sample.ascii_lower Sample.repeated_listing Sample.empty_db
    = Return (status_success 2 Sample.feb_1_2024, db') /\
    map doc_id (news db') = [0%N; 1%N] /\
    store_keys db'
    = [ (u "2024 수능 전형 일정 안내", u "교육부");
        (u "2024 수능 전형 일정 안내", u "교육부") ].
Proof.
  cbv zeta.
  split; [constructor |].
  split; [vm_compute; reflexivity |].
  split; [reflexivity |].
  eexists. split; [vm_compute; reflexivity |].
  split; vm_compute; reflexivity.
Qed.

(** ** The theorems at concrete inputs *)

Lemma C6_witness :
  fetch_page Sample.eight_row_site Sample.example_config
  = Return (mk_soup (fun _ => Sample.first_five ++ Sample.last_three)) /\
  List.length Sample.first_five = 5 /\
  candidate_rows (mk_soup (fun _ => Sample.first_five ++ Sample.last_three))
                 Sample.example_config = Sample.first_five /\
  crawl_education_office Sample.ascii_lower Sample.eight_row_site (u "교육부")
                         Sample.example_config
  = Return (extract_articles Sample.ascii_lower Sample.eight_row_site (u "교육부")
                             Sample.example_config Sample.first_five).
Proof.
  split; [reflexivity | split; [reflexivity |]].
  exact (C6_only_first_five_rows_are_candidates
           Sample.ascii_lower Sample.eight_row_site (u "교육부")
           Sample.example_config
           (mk_soup (fun _ => Sample.first_five ++ Sample.last_three))
           Sample.first_five Sample.last_three
           eq_refl eq_refl eq_refl).
Defined.

Lemma C7_witness :
  select_one Sample.admission_row (title_selector Sample.example_config)
  = Some (mk_tag (u " 2024 수능 전형 일정 안내 ") (Some (u "/view?id=5"))) /\
  extract_article Sample.ascii_lower Sample.all_sites_up (u "교육부")
                  Sample.example_config Sample.admission_row
  = Some Sample.admission_article /\
  u "/view?id=5" <> [] /\
  startswith (u "/view?id=5") (u "http") = false /\
  link Sample.admission_article
  = join [SLASH] (firstn 3 (split SLASH (url Sample.example_config)))
    ++ u "/view?id=5".
Proof.
  assert (Hsel : select_one Sample.admission_row
                   (title_selector Sample.example_config)
                 = Some (mk_tag (u " 2024 수능 전형 일정 안내 ")
                                (Some (u "/view?id=5"))))
    by (vm_compute; reflexivity).
  assert (Hart : extract_article Sample.ascii_lower Sample.all_sites_up
                   (u "교육부") Sample.example_config Sample.admission_row
                 = Some Sample.admission_article)
    by (vm_compute; reflexivity).
  assert (Hne : u "/view?id=5" <> []) by (vm_compute; discriminate).
  assert (Hrel : startswith (u "/view?id=5") (u "http") = false)
    by (vm_compute; reflexivity).
  split; [exact Hsel | split; [exact Hart | split; [exact Hne | split; [exact Hrel |]]]].
  exact (proj1 (C7_relative_link_resolution
                  Sample.ascii_lower Sample.all_sites_up (u "교육부")
                  Sample.example_config Sample.admission_row
                  (mk_tag (u " 2024 수능 전형 일정 안내 ") (Some (u "/view?id=5")))
                  Sample.admission_article Hsel Hart)
               Hne Hrel).
Defined.

(** The row [schedule_row] has no [href]: its link does not start with
    ['http'], and it is stored empty, not as the base of the endpoint. *)
Lemma C7_empty_link_stays_empty :
  startswith [] (u "http") = false /\
  option_map link
    (extract_article Sample.ascii_lower Sample.all_sites_up (u "교육부")
                     Sample.example_config Sample.schedule_row)
  = Some [] /\
  join [SLASH] (firstn 3 (split SLASH (url Sample.example_config))) ++ []
  = u "https://example.go.kr" /\
  resolve_link (url Sample.example_config) []
  <> join [SLASH] (firstn 3 (split SLASH (url Sample.example_config))) ++ [].
Proof.
  split; [reflexivity |].
  split; [vm_compute; reflexivity |].
  split; [vm_compute; reflexivity |].
  vm_compute. discriminate.
Qed.

Lemma X18_witness :
  save_articles_to_firestore Sample.all_sites_up Sample.empty_db
                             Sample.one_per_category
  = Return Sample.stored_one_per_category /\
  (forall c, List.length (where_category c (news Sample.stored_one_per_category)) = 1) /\
  (forall c docs,
      In (c, docs) (news_data Sample.stored_one_per_category) ->
      List.length docs = 1).
Proof.
  assert (Hone : forall c,
             List.length (where_category c (news Sample.stored_one_per_category)) = 1)
    by (intros []; reflexivity).
  split; [vm_compute; reflexivity | split; [exact Hone |]].
  exact (proj2 (proj2 (X18_news_data_latest_five_per_category
                         Sample.stored_one_per_category)) Hone).
Defined.

Lemma C9_witness :
  EDUCATION_OFFICES = [] ++ (u "교육부", Sample.moe_config) :: tl EDUCATION_OFFICES /\
  fetch_page Sample.first_site_down Sample.moe_config
  = Raise (Exception (u "Read timed out.")) /\
  crawl_education_office Sample.ascii_lower Sample.first_site_down
                         (u "교육부") Sample.moe_config = Return [] /\
  crawl_offices Sample.ascii_lower Sample.first_site_down EDUCATION_OFFICES []
  = flat_map (articles_of Sample.ascii_lower Sample.first_site_down)
             ([] ++ tl EDUCATION_OFFICES) /\
  exists db',
    weekly_news_crawler Sample.ascii_lower Sample.first_site_down Sample.empty_db
    = Return (status_success
                (List.length
                   (flat_map (articles_of Sample.ascii_lower Sample.first_site_down)
                             ([] ++ tl EDUCATION_OFFICES)))
                (now Sample.first_site_down), db').
Proof.
  assert (Hreg : EDUCATION_OFFICES
                 = [] ++ (u "교육부", Sample.moe_config) :: tl EDUCATION_OFFICES)
    by (vm_compute; reflexivity).
  assert (Hfetch : fetch_page Sample.first_site_down Sample.moe_config
                   = Raise (Exception (u "Read timed out.")))
    by (vm_compute; reflexivity).
  split; [exact Hreg | split; [exact Hfetch |]].
  exact (C9_failed_source_is_isolated
           Sample.ascii_lower Sample.first_site_down Sample.empty_db
           [] (u "교육부") Sample.moe_config (tl EDUCATION_OFFICES)
           (Exception (u "Read timed out."))
           Hreg Hfetch eq_refl eq_refl eq_refl).
Defined.

Lemma C10_witness :
  PyStr.eqb (u "POST") (u "OPTIONS") = false /\
  crawl_pass Sample.ascii_lower Sample.store_down Sample.empty_db
  = Raise (Exception (u "DefaultCredentialsError")) /\
  manual_crawl Sample.ascii_lower Sample.store_down Sample.empty_db (u "POST")
  = (mk_http (body_status
                (status_error (str_exn (Exception (u "DefaultCredentialsError")))
                              (now Sample.store_down)))
             200 CORS_HEADERS, Sample.empty_db).
Proof.
  assert (Hm : PyStr.eqb (u "POST") (u "OPTIONS") = false)
    by (vm_compute; reflexivity).
  assert (He : crawl_pass Sample.ascii_lower Sample.store_down Sample.empty_db
               = Raise (Exception (u "DefaultCredentialsError")))
    by reflexivity.
  split; [exact Hm | split; [exact He |]].
  exact (proj2 (proj2 (proj2 (C10_manual_crawl_answers_200_on_crawl_failure
                                Sample.ascii_lower Sample.store_down
                                Sample.empty_db (u "POST") Hm))
                      (Exception (u "DefaultCredentialsError")) He)).
Defined.

(** A refused batch write ends the same way: error record, status 200, and
    the collection as it was. *)
Lemma manual_crawl_commit_refused :
  manual_crawl Sample.ascii_lower Sample.commit_refused Sample.empty_db (u "GET")
  = (mk_http (body_status (status_error (u "503 Deadline Exceeded")
                                        Sample.feb_1_2024))
             200 CORS_HEADERS, Sample.empty_db).
Proof. vm_compute. reflexivity. Qed.

(** ** Month-day texts in the recency filter *)

Lemma occurrences_app :
  forall c a b, occurrences c (a ++ b) = occurrences c a + occurrences c b.
Proof.
  intros c a b. unfold occurrences. rewrite filter_app, length_app. reflexivity.
Qed.

Lemma split_length :
  forall sep s, List.length (split sep s) = S (occurrences sep s).
Proof.
  intros sep s. induction s as [|c s IH]; [reflexivity |].
  unfold occurrences in *. cbn [split filter].
  destruct (c =? sep)%N; cbn [List.length].
  - rewrite IH. reflexivity.
  - destruct (split sep s) as [|piece pieces]; [discriminate IH | exact IH].
Qed.

Lemma uint_chars_no_period :
  forall d, occurrences PERIOD (uint_chars d) = 0.
Proof. induction d; cbn [uint_chars]; [reflexivity | exact IHd ..]. Qed.

Lemma str_of_int_no_period :
  forall z, occurrences PERIOD (str_of_int z) = 0.
Proof. intros [|p|p]; cbn [str_of_int]; apply uint_chars_no_period. Qed.

Lemma consumes_ret :
  forall (A : Type) (a : A), consumes (p_ret a) 0 0.
Proof.
  intros A a s a' r [H | []]. injection H as _ ->. exists []. auto.
Qed.

Lemma consumes_bind :
  forall (A B : Type) (p : parser A) (k : A -> parser B) h1 q1 h2 q2,
    consumes p h1 q1 -> (forall a, consumes (k a) h2 q2) ->
    consumes (p_bind p k) (h1 + h2) (q1 + q2).
Proof.
  intros A B p k h1 q1 h2 q2 Hp Hk s b r Hin. unfold p_bind in Hin.
  apply in_flat_map in Hin. destruct Hin as ([a r1] & H1 & H2). cbn [fst snd] in H2.
  destruct (Hp _ _ _ H1) as (w1 & -> & Hh1 & Hq1).
  destruct (Hk a _ _ _ H2) as (w2 & -> & Hh2 & Hq2).
  exists (w1 ++ w2). rewrite <- app_assoc, !occurrences_app. auto.
Qed.

Lemma consumes_alt :
  forall (A : Type) (p p' : parser A) h q,
    consumes p h q -> consumes p' h q -> consumes (p_alt p p') h q.
Proof.
  intros A p p' h q Hp Hp' s a r Hin. unfold p_alt in Hin.
  apply in_app_or in Hin. destruct Hin as [Hin | Hin]; eauto.
Qed.

Lemma consumes_digit : consumes p_digit 0 0.
Proof.
  intros s a r Hin. unfold p_digit in Hin.
  destruct s as [|c s]; [destruct Hin |].
  destruct (decimal c) as [v|] eqn:Hd; [| destruct Hin].
  destruct Hin as [H | []]. injection H as _ ->.
  exists [c]. split; [reflexivity |].
  unfold occurrences. cbn [filter].
  split.
  - destruct (c =? HYPHEN)%N eqn:E; [| reflexivity].
    apply N.eqb_eq in E. subst c. vm_compute in Hd. discriminate Hd.
  - destruct (c =? PERIOD)%N eqn:E; [| reflexivity].
    apply N.eqb_eq in E. subst c. vm_compute in Hd. discriminate Hd.
Qed.

Lemma consumes_range : forall lo hi, consumes (p_range lo hi) 0 0.
Proof.
  intros lo hi s a r Hin. unfold p_range in Hin.
  destruct s as [|c s]; [destruct Hin |].
  destruct ((48 + lo <=? c) && (c <=? 48 + hi))%N eqn:Hc; [| destruct Hin].
  destruct Hin as [H | []]. injection H as _ ->.
  apply andb_true_iff in Hc. destruct Hc as [Hlo _]. apply N.leb_le in Hlo.
  exists [c]. split; [reflexivity |].
  unfold occurrences, HYPHEN, PERIOD. cbn [filter].
  split.
  - destruct (c =? 45)%N eqn:E; [apply N.eqb_eq in E; lia | reflexivity].
  - destruct (c =? 46)%N eqn:E; [apply N.eqb_eq in E; lia | reflexivity].
Qed.

Lemma consumes_char :
  forall c, consumes (p_char c) (occurrences HYPHEN [c]) (occurrences PERIOD [c]).
Proof.
  intros c s a r Hin. unfold p_char in Hin.
  destruct s as [|c' s]; [destruct Hin |].
  destruct (c' =? c)%N eqn:Hc; [| destruct Hin].
  destruct Hin as [H | []]. injection H as _ ->.
  apply N.eqb_eq in Hc. subst c'. exists [c]. auto.
Qed.

Lemma consumes_re_Y : consumes re_Y 0 0.
Proof.
  unfold re_Y.
  repeat (apply (consumes_bind _ _ _ _ 0 0 0 0); [apply consumes_digit | intros ?]).
  apply consumes_ret.
Qed.

Lemma consumes_re_m : consumes re_m 0 0.
Proof.
  unfold re_m. repeat apply consumes_alt;
    repeat first [ apply consumes_range
                 | apply consumes_ret
                 | apply (consumes_bind _ _ _ _ 0 0 0 0); [| intros ?] ].
Qed.

Lemma consumes_re_d : consumes re_d 0 0.
Proof.
  unfold re_d. repeat apply consumes_alt;
    repeat first [ apply consumes_range
                 | apply consumes_digit
                 | apply consumes_ret
                 | apply (consumes_char 32%N)
                 | apply (consumes_bind _ _ _ _ 0 0 0 0); [| intros ?] ].
Qed.

Lemma consumes_re_format :
  forall fmt acc,
    consumes (re_format fmt acc) (literal_count HYPHEN fmt) (literal_count PERIOD fmt).
Proof.
  induction fmt as [|d fmt IH]; intros acc; cbn [re_format].
  - apply consumes_ret.
  - destruct d as [| | |c]; unfold literal_count in *; cbn [filter].
    + apply (consumes_bind _ _ _ _ 0 0); [apply consumes_re_Y | intros y; apply IH].
    + apply (consumes_bind _ _ _ _ 0 0); [apply consumes_re_m | intros m; apply IH].
    + apply (consumes_bind _ _ _ _ 0 0); [apply consumes_re_d | intros m; apply IH].
    + pose proof (consumes_char c) as Hc. unfold occurrences in Hc. cbn [filter] in Hc.
      destruct (c =? HYPHEN)%N, (c =? PERIOD)%N; cbn [List.length] in *;
        lazymatch goal with
        | |- consumes _ (S ?h) (S ?q) =>
            apply (consumes_bind _ _ _ _ 1 1 h q); [exact Hc | intros ?; apply IH]
        | |- consumes _ (S ?h) ?q =>
            apply (consumes_bind _ _ _ _ 1 0 h q); [exact Hc | intros ?; apply IH]
        | |- consumes _ ?h (S ?q) =>
            apply (consumes_bind _ _ _ _ 0 1 h q); [exact Hc | intros ?; apply IH]
        | |- consumes _ ?h ?q =>
            apply (consumes_bind _ _ _ _ 0 0 h q); [exact Hc | intros ?; apply IH]
        end.
Qed.

(** A text that [strptime] accepts has as many hyphens and periods as its
    format. *)
Lemma strptime_literals :
  forall text fmt d,
    strptime text fmt = Some d ->
    occurrences HYPHEN text = literal_count HYPHEN fmt /\
    occurrences PERIOD text = literal_count PERIOD fmt.
Proof.
  intros text fmt d. unfold strptime.
  destruct (re_format fmt (mk_fields None 1 1) text) as [|[f rest] others] eqn:Hre;
    [discriminate |].
  destruct rest as [|c rest]; [| discriminate].
  intros _.
  destruct (consumes_re_format fmt (mk_fields None 1 1) text f [])
    as (w & Hw & Hh & Hq).
  { rewrite Hre. left. reflexivity. }
  rewrite app_nil_r in Hw. subst w. auto.
Qed.

Lemma try_formats_one_period :
  forall now fmts text,
    occurrences PERIOD text = 1 ->
    (forall fmt, In fmt fmts ->
                 literal_count PERIOD fmt = 1 -> literal_count HYPHEN fmt = 0) ->
    try_formats now fmts text = true.
Proof.
  intros now fmts. induction fmts as [|fmt fmts IH]; intros text Hone Hfmts;
    cbn [try_formats]; [reflexivity |].
  assert (Hpre : prepend_year now text = str_of_int (year now) ++ [HYPHEN] ++ text).
  { unfold prepend_year. rewrite (split_length PERIOD), Hone.
    cbn [Nat.eqb]. rewrite orb_true_r. reflexivity. }
  rewrite Hpre.
  set (text' := str_of_int (year now) ++ [HYPHEN] ++ text).
  assert (Hq : occurrences PERIOD text' = 1).
  { unfold text'. rewrite !occurrences_app, str_of_int_no_period, Hone. reflexivity. }
  assert (Hh : 1 <= occurrences HYPHEN text').
  { unfold text'. rewrite !occurrences_app.
    change (occurrences HYPHEN [HYPHEN]) with 1. lia. }
  assert (Hnone : strptime text' fmt = None).
  { destruct (strptime text' fmt) as [d|] eqn:Hp; [| reflexivity].
    apply strptime_literals in Hp. destruct Hp as [Hph Hpq].
    assert (H0 : literal_count HYPHEN fmt = 0).
    { apply Hfmts; [left; reflexivity | congruence]. }
    lia. }
  rewrite Hnone. apply IH; [exact Hq |].
  intros fmt' Hin. apply Hfmts. right. exact Hin.
Qed.

(** Whatever the moment, a text that is left with exactly one period after
    cleaning (a month-day text "MM.DD" among them) makes the filter fall
    back to [true]: no round of the loop parses it. *)
Lemma is_recent_article_one_period :
  forall now date_text,
    occurrences PERIOD (clean_date_text date_text) = 1 ->
    is_recent_article now date_text = true.
Proof.
  intros now date_text Hone. unfold is_recent_article.
  apply try_formats_one_period; [exact Hone |].
  intros fmt Hin. unfold DATE_FORMATS in Hin.
  destruct Hin as [<- | [<- | [<- | [<- | []]]]]; vm_compute; congruence.
Qed.

(** The sibling path: a text with exactly one hyphen gets the year in
    front in the first round, and when that is a date the answer is the
    comparison with the moment thirty days back. *)
Lemma is_recent_article_one_hyphen :
  forall now date_text article_date thirty_days_ago,
    occurrences HYPHEN (clean_date_text date_text) = 1 ->
    strptime (str_of_int (year now) ++ [HYPHEN] ++ clean_date_text date_text)
             fmt_Y_m_d_hyphen = Some article_date ->
    sub_days now 30 = Some thirty_days_ago ->
    is_recent_article now date_text = Datetime.ge article_date thirty_days_ago.
Proof.
  intros now date_text article_date thirty_days_ago Hone Hparse Hsub.
  unfold is_recent_article, DATE_FORMATS. cbn [try_formats].
  unfold prepend_year. rewrite (split_length HYPHEN), Hone. cbn [Nat.eqb orb].
  rewrite Hparse, Hsub. reflexivity.
Qed.

(* ================================================================== *)
(** * Further properties of the code *)
(* ================================================================== *)

(** ** Which texts the recency filter can reject *)

Lemma strptime_mismatch :
  forall text fmt,
    occurrences HYPHEN text <> literal_count HYPHEN fmt \/
    occurrences PERIOD text <> literal_count PERIOD fmt ->
    strptime text fmt = None.
Proof.
  intros text fmt H. destruct (strptime text fmt) as [d|] eqn:Hp; [| reflexivity].
  apply strptime_literals in Hp. destruct Hp, H; congruence.
Qed.

Lemma decided_by_mismatch :
  forall now text fmt,
    occurrences HYPHEN text <> literal_count HYPHEN fmt \/
    occurrences PERIOD text <> literal_count PERIOD fmt ->
    decided_by now text fmt = true.
Proof.
  intros now text fmt H. unfold decided_by.
  rewrite (strptime_mismatch _ _ H). reflexivity.
Qed.

(** What the head of a round does to the counts of hyphens and periods. *)
Lemma prepend_year_counts :
  forall now text,
    ((occurrences HYPHEN text = 1 \/ occurrences PERIOD text = 1) /\
     prepend_year now text = str_of_int (year now) ++ [HYPHEN] ++ text /\
     occurrences HYPHEN (prepend_year now text)
     = occurrences HYPHEN (str_of_int (year now)) + 1 + occurrences HYPHEN text /\
     occurrences PERIOD (prepend_year now text) = occurrences PERIOD text)
    \/
    (occurrences HYPHEN text <> 1 /\ occurrences PERIOD text <> 1 /\
     prepend_year now text = text).
Proof.
  intros now text. unfold prepend_year. rewrite !split_length.
  change (S (occurrences HYPHEN text) =? 2) with (occurrences HYPHEN text =? 1).
  change (S (occurrences PERIOD text) =? 2) with (occurrences PERIOD text =? 1).
  destruct (Nat.eqb_spec (occurrences HYPHEN text) 1) as [Hh | Hh];
    destruct (Nat.eqb_spec (occurrences PERIOD text) 1) as [Hp | Hp]; cbn [orb].
  4: { right. auto. }
  all: left; rewrite !occurrences_app, str_of_int_no_period;
    change (occurrences HYPHEN [HYPHEN]) with 1;
    change (occurrences PERIOD [HYPHEN]) with 0;
    repeat split; auto; lia.
Qed.

Lemma try_formats_cons :
  forall now fmt fmts text,
    try_formats now (fmt :: fmts) text =
    match strptime (prepend_year now text) fmt with
    | Some article_date =>
        match sub_days now 30 with
        | Some thirty_days_ago => Datetime.ge article_date thirty_days_ago
        | None => try_formats now fmts (prepend_year now text)
        end
    | None => try_formats now fmts (prepend_year now text)
    end.
Proof. reflexivity. Qed.

Lemma literal_counts_of_formats :
  literal_count HYPHEN fmt_Y_m_d_hyphen = 2 /\ literal_count PERIOD fmt_Y_m_d_hyphen = 0 /\
  literal_count HYPHEN fmt_Y_m_d_period = 0 /\ literal_count PERIOD fmt_Y_m_d_period = 2 /\
  literal_count HYPHEN fmt_m_d_hyphen = 1 /\ literal_count PERIOD fmt_m_d_hyphen = 0 /\
  literal_count HYPHEN fmt_m_d_period = 0 /\ literal_count PERIOD fmt_m_d_period = 1.
Proof. repeat (split; [reflexivity |]). reflexivity. Qed.

(** The rounds of ['%m-%d'] and ['%m.%d'] never parse anything: a text of
    their shape has just been given a year. *)
Lemma month_day_rounds_fall_through :
  forall now text,
    try_formats now [fmt_m_d_hyphen; fmt_m_d_period] text = true.
Proof.
  intros now text.
  destruct literal_counts_of_formats as (_ & _ & _ & _ & H3h & H3p & H4h & H4p).
  rewrite try_formats_cons.
  assert (H3 : strptime (prepend_year now text) fmt_m_d_hyphen = None).
  { apply strptime_mismatch. rewrite H3h, H3p.
    destruct (prepend_year_counts now text)
      as [(H1 & _ & Hh & Hp) | (Hh & Hp & Heq)].
    - destruct (Nat.eq_dec (occurrences PERIOD (prepend_year now text)) 0);
        [| right; assumption].
      left. lia.
    - rewrite Heq. left. exact Hh. }
  rewrite H3, try_formats_cons.
  assert (H4 : strptime (prepend_year now (prepend_year now text)) fmt_m_d_period
               = None).
  { apply strptime_mismatch. rewrite H4h, H4p.
    destruct (prepend_year_counts now (prepend_year now text))
      as [(_ & _ & Hh & Hp) | (Hh & Hp & Heq)].
    - left. lia.
    - rewrite Heq. right. exact Hp. }
  rewrite H4. reflexivity.
Qed.

Lemma try_formats_from_period :
  forall now text,
    try_formats now [fmt_Y_m_d_period; fmt_m_d_hyphen; fmt_m_d_period] text =
    if (occurrences HYPHEN text =? 0) && (occurrences PERIOD text =? 2)
    then decided_by now text fmt_Y_m_d_period
    else true.
Proof.
  intros now text.
  destruct literal_counts_of_formats as (_ & _ & H2h & H2p & _).
  rewrite try_formats_cons, month_day_rounds_fall_through.
  change (match strptime (prepend_year now text) fmt_Y_m_d_period with
          | Some article_date =>
              match sub_days now 30 with
              | Some thirty_days_ago => Datetime.ge article_date thirty_days_ago
              | None => true
              end
          | None => true
          end)
    with (decided_by now (prepend_year now text) fmt_Y_m_d_period).
  destruct (prepend_year_counts now text)
    as [(H1 & _ & Hh & Hp) | (Hh & Hp & Heq)].
  - rewrite decided_by_mismatch by (rewrite H2h; left; lia).
    destruct (Nat.eqb_spec (occurrences HYPHEN text) 0) as [E0 | E0];
      destruct (Nat.eqb_spec (occurrences PERIOD text) 2) as [E2 | E2];
      cbn [andb]; try reflexivity.
    lia.
  - rewrite Heq.
    destruct (Nat.eqb_spec (occurrences HYPHEN text) 0) as [E0 | E0];
      destruct (Nat.eqb_spec (occurrences PERIOD text) 2) as [E2 | E2];
      cbn [andb]; try reflexivity;
      apply decided_by_mismatch; rewrite H2h, H2p; auto.
Qed.

Lemma uint_chars_no_hyphen :
  forall d, occurrences HYPHEN (uint_chars d) = 0.
Proof. induction d; cbn [uint_chars]; [reflexivity | exact IHd ..]. Qed.

Lemma str_of_int_no_hyphen :
  forall z, (0 <= z)%Z -> occurrences HYPHEN (str_of_int z) = 0.
Proof.
  intros [|p|p] Hz; cbn [str_of_int]; try apply uint_chars_no_hyphen. lia.
Qed.

(** The filter, by the shape of the cleaned text. *)
Lemma is_recent_article_by_shape :
  forall now date_text,
    (0 <= year now)%Z ->
    is_recent_article now date_text =
    let text := clean_date_text date_text in
    let h := occurrences HYPHEN text in
    let p := occurrences PERIOD text in
    if (h =? 1) && (p =? 0)
    then decided_by now (str_of_int (year now) ++ [HYPHEN] ++ text) fmt_Y_m_d_hyphen
    else if (h =? 2) && (p =? 0) then decided_by now text fmt_Y_m_d_hyphen
    else if (h =? 0) && (p =? 2) then decided_by now text fmt_Y_m_d_period
    else true.
Proof.
  intros now date_text Hyear. cbv zeta. unfold is_recent_article, DATE_FORMATS.
  set (text := clean_date_text date_text).
  destruct literal_counts_of_formats as (H1h & H1p & _).
  pose proof (str_of_int_no_hyphen (year now) Hyear) as HY.
  rewrite try_formats_cons, try_formats_from_period.
  destruct (prepend_year_counts now text)
    as [(H1 & Heq & Hh & Hp) | (Hh & Hp & Heq)].
  - rewrite HY in Hh.
    assert (E0 : (occurrences HYPHEN (prepend_year now text) =? 0) = false)
      by (apply Nat.eqb_neq; lia).
    rewrite E0. cbn [andb].
    change (match strptime (prepend_year now text) fmt_Y_m_d_hyphen with
            | Some article_date =>
                match sub_days now 30 with
                | Some thirty_days_ago => Datetime.ge article_date thirty_days_ago
                | None => true
                end
            | None => true
            end)
      with (decided_by now (prepend_year now text) fmt_Y_m_d_hyphen).
    destruct (Nat.eqb_spec (occurrences HYPHEN text) 1) as [Eh | Eh];
      destruct (Nat.eqb_spec (occurrences PERIOD text) 0) as [Ep | Ep];
      cbn [andb].
    + rewrite Heq. reflexivity.
    + rewrite decided_by_mismatch by (rewrite H1p; right; lia).
      replace (occurrences HYPHEN text =? 2) with false
        by (symmetry; apply Nat.eqb_neq; lia).
      replace (occurrences HYPHEN text =? 0) with false
        by (symmetry; apply Nat.eqb_neq; lia).
      reflexivity.
    + exfalso. lia.
    + rewrite decided_by_mismatch by (rewrite H1p; right; lia).
      replace (occurrences PERIOD text =? 2) with false
        by (symmetry; apply Nat.eqb_neq; lia).
      destruct (occurrences HYPHEN text =? 2), (occurrences HYPHEN text =? 0);
        reflexivity.
  - rewrite Heq.
    replace (occurrences HYPHEN text =? 1) with false
      by (symmetry; apply Nat.eqb_neq; lia).
    cbn [andb].
    destruct (Nat.eqb_spec (occurrences HYPHEN text) 2) as [E2 | E2];
      destruct (Nat.eqb_spec (occurrences PERIOD text) 0) as [Ep | Ep];
      cbn [andb].
    + replace (occurrences HYPHEN text =? 0) with false
        by (symmetry; apply Nat.eqb_neq; lia).
      cbn [andb]. unfold decided_by.
      destruct (strptime text fmt_Y_m_d_hyphen); [| reflexivity].
      destruct (sub_days now 30); reflexivity.
    + rewrite (strptime_mismatch text fmt_Y_m_d_hyphen)
        by (rewrite H1p; right; lia).
      reflexivity.
    + rewrite (strptime_mismatch text fmt_Y_m_d_hyphen)
        by (rewrite H1h; left; lia).
      reflexivity.
    + rewrite (strptime_mismatch text fmt_Y_m_d_hyphen)
        by (rewrite H1h; left; lia).
      reflexivity.
Qed.

(** X1. The rounds of the formats ['%m-%d'] and ['%m.%d'] never decide
    anything: for every moment and every text the filter answers what the
    loop over the two full-date formats alone answers. *)
Theorem X1_month_day_formats_never_match :
  forall now date_text,
    is_recent_article now date_text =
    try_formats now [fmt_Y_m_d_hyphen; fmt_Y_m_d_period] (clean_date_text date_text).
Proof.
  intros now date_text. unfold is_recent_article, DATE_FORMATS.
  generalize (clean_date_text date_text). intros text.
  rewrite !(try_formats_cons now fmt_Y_m_d_hyphen).
  destruct (strptime (prepend_year now text) fmt_Y_m_d_hyphen) as [d1|];
    [destruct (sub_days now 30); [reflexivity |] |];
    rewrite !(try_formats_cons now fmt_Y_m_d_period);
    (destruct (strptime _ fmt_Y_m_d_period) as [d2|];
     [destruct (sub_days now 30); [reflexivity |] |]);
    rewrite month_day_rounds_fall_through; reflexivity.
Qed.

(** X2. The filter rejects a text only when the cleaned text has one of
    three shapes (hyphen month-day, full hyphen date, full period date),
    the round of that shape parses it, and the parsed date is before the
    moment thirty days back; every other text is kept. *)
Theorem X2_rejected_text_is_a_parsed_old_date :
  forall now date_text,
    (0 <= year now)%Z ->
    is_recent_article now date_text = false ->
    exists parsed fmt article_date thirty_days_ago,
      date_shape now (clean_date_text date_text) parsed fmt /\
      strptime parsed fmt = Some article_date /\
      sub_days now 30 = Some thirty_days_ago /\
      Datetime.ge article_date thirty_days_ago = false.
Proof.
  intros now date_text Hyear Hrej.
  rewrite (is_recent_article_by_shape now date_text Hyear) in Hrej.
  cbv zeta in Hrej. set (text := clean_date_text date_text) in *.
  assert (Hdec : forall parsed fmt,
             decided_by now parsed fmt = false ->
             exists article_date thirty_days_ago,
               strptime parsed fmt = Some article_date /\
               sub_days now 30 = Some thirty_days_ago /\
               Datetime.ge article_date thirty_days_ago = false).
  { intros parsed fmt. unfold decided_by.
    destruct (strptime parsed fmt) as [a|]; [| discriminate].
    destruct (sub_days now 30) as [ago|]; [| discriminate].
    intros H. exists a, ago. auto. }
  unfold date_shape.
  destruct (Nat.eqb_spec (occurrences HYPHEN text) 1) as [E1 | E1];
    destruct (Nat.eqb_spec (occurrences PERIOD text) 0) as [Ep | Ep];
    cbn [andb] in Hrej.
  - destruct (Hdec _ _ Hrej) as (a & ago & H).
    exists (str_of_int (year now) ++ [HYPHEN] ++ text), fmt_Y_m_d_hyphen, a, ago.
    split; [left; auto | exact H].
  - destruct (Nat.eqb_spec (occurrences HYPHEN text) 2) as [E2 | E2];
      cbn [andb] in Hrej.
    + destruct (Nat.eqb_spec (occurrences HYPHEN text) 0); cbn [andb] in Hrej;
        [lia | discriminate].
    + destruct (Nat.eqb_spec (occurrences HYPHEN text) 0); cbn [andb] in Hrej;
        [lia | discriminate].
  - destruct (Nat.eqb_spec (occurrences HYPHEN text) 2) as [E2 | E2];
      cbn [andb] in Hrej.
    + destruct (Hdec _ _ Hrej) as (a & ago & H).
      exists text, fmt_Y_m_d_hyphen, a, ago.
      split; [right; left; auto | exact H].
    + destruct (Nat.eqb_spec (occurrences HYPHEN text) 0); cbn [andb] in Hrej;
        [| discriminate].
      destruct (Nat.eqb_spec (occurrences PERIOD text) 2); [lia | discriminate].
  - destruct (Nat.eqb_spec (occurrences HYPHEN text) 2) as [E2 | E2];
      cbn [andb] in Hrej.
    + destruct (Nat.eqb_spec (occurrences HYPHEN text) 0); cbn [andb] in Hrej;
        [lia | discriminate].
    + destruct (Nat.eqb_spec (occurrences HYPHEN text) 0) as [E0 | E0];
        cbn [andb] in Hrej; [| discriminate].
      destruct (Nat.eqb_spec (occurrences PERIOD text) 2) as [Ep2 | Ep2];
        [| discriminate].
      destruct (Hdec _ _ Hrej) as (a & ago & H).
      exists text, fmt_Y_m_d_period, a, ago.
      split; [right; right; auto | exact H].
Qed.

(** ** Texts that do not end in a digit *)

Lemma ascii_digit_isdecimal :
  forall lo hi c,
    (hi <= 9)%N -> ((48 + lo <=? c) && (c <=? 48 + hi))%N = true ->
    isdecimal c = true.
Proof.
  intros lo hi c Hhi Hc. apply andb_true_iff in Hc. destruct Hc as [Hlo Hup].
  apply N.leb_le in Hlo, Hup.
  unfold isdecimal, decimal, Nd_zeros. cbn [find].
  assert (H : ((48 <=? c) && (c <? 48 + 10))%N = true).
  { apply andb_true_iff. split; [apply N.leb_le | apply N.ltb_lt]; lia. }
  rewrite H. reflexivity.
Qed.

Lemma ends_on_digit_range :
  forall lo hi, (hi <= 9)%N -> ends_on_digit (p_range lo hi).
Proof.
  intros lo hi Hhi s a r Hin. unfold p_range in Hin.
  destruct s as [|c s]; [destruct Hin |].
  destruct ((48 + lo <=? c) && (c <=? 48 + hi))%N eqn:Hc; [| destruct Hin].
  destruct Hin as [H | []]. injection H as _ ->.
  exists [], c. split; [reflexivity |].
  exact (ascii_digit_isdecimal lo hi c Hhi Hc).
Qed.

Lemma ends_on_digit_digit : ends_on_digit p_digit.
Proof.
  intros s a r Hin. unfold p_digit in Hin.
  destruct s as [|c s]; [destruct Hin |].
  destruct (decimal c) as [v|] eqn:Hd; [| destruct Hin].
  destruct Hin as [H | []]. injection H as _ ->.
  exists [], c. split; [reflexivity |]. unfold isdecimal. rewrite Hd. reflexivity.
Qed.

Lemma ends_on_digit_bind :
  forall (A B : Type) (p : parser A) (k : A -> parser B) h q,
    consumes p h q -> (forall a, ends_on_digit (k a)) ->
    ends_on_digit (p_bind p k).
Proof.
  intros A B p k h q Hp Hk s b r Hin. unfold p_bind in Hin.
  apply in_flat_map in Hin. destruct Hin as ([a r1] & H1 & H2). cbn [fst snd] in H2.
  destruct (Hp _ _ _ H1) as (w1 & -> & _).
  destruct (Hk a _ _ _ H2) as (w2 & c & -> & Hc).
  exists (w1 ++ w2), c. rewrite <- app_assoc. auto.
Qed.

Lemma ends_on_digit_then_ret :
  forall (A B : Type) (p : parser A) (f : A -> B),
    ends_on_digit p -> ends_on_digit (p_bind p (fun a => p_ret (f a))).
Proof.
  intros A B p f Hp s b r Hin. unfold p_bind in Hin.
  apply in_flat_map in Hin. destruct Hin as ([a r1] & H1 & H2). cbn [fst snd] in H2.
  destruct H2 as [H2 | []]. injection H2 as _ ->.
  exact (Hp _ _ _ H1).
Qed.

Lemma ends_on_digit_alt :
  forall (A : Type) (p p' : parser A),
    ends_on_digit p -> ends_on_digit p' -> ends_on_digit (p_alt p p').
Proof.
  intros A p p' Hp Hp' s a r Hin. unfold p_alt in Hin.
  apply in_app_or in Hin. destruct Hin as [Hin | Hin]; eauto.
Qed.

Lemma ends_on_digit_re_d : ends_on_digit re_d.
Proof.
  unfold re_d.
  repeat apply ends_on_digit_alt.
  - apply (ends_on_digit_bind _ _ _ _ 0 0); [apply consumes_range | intros a].
    apply (ends_on_digit_then_ret _ _ (p_range 0 1) (fun b => (10 * a + b)%Z)).
    apply ends_on_digit_range. lia.
  - apply (ends_on_digit_bind _ _ _ _ 0 0); [apply consumes_range | intros a].
    apply (ends_on_digit_then_ret _ _ p_digit (fun b => (10 * a + b)%Z)).
    apply ends_on_digit_digit.
  - apply (ends_on_digit_bind _ _ _ _ 0 0); [apply consumes_range | intros a].
    apply ends_on_digit_range. lia.
  - apply ends_on_digit_range. lia.
  - apply (ends_on_digit_bind _ _ _ _ 0 0); [apply (consumes_char 32%N) | intros a].
    apply ends_on_digit_range. lia.
Qed.

(** A format whose last directive is [%d] only matches up to a digit. *)
Lemma ends_on_digit_re_format :
  forall fmt acc,
    ends_on_digit (re_format (fmt ++ [pct_d]) acc).
Proof.
  induction fmt as [|d fmt IH]; intros acc; cbn [app re_format].
  - apply (ends_on_digit_then_ret _ _ re_d
             (fun d => mk_fields (f_year acc) (f_month acc) d)).
    apply ends_on_digit_re_d.
  - destruct d as [| | |c].
    + apply (ends_on_digit_bind _ _ _ _ 0 0); [apply consumes_re_Y | intros; apply IH].
    + apply (ends_on_digit_bind _ _ _ _ 0 0); [apply consumes_re_m | intros; apply IH].
    + apply (ends_on_digit_bind _ _ _ _ 0 0); [apply consumes_re_d | intros; apply IH].
    + apply (ends_on_digit_bind _ _ _ _
               (occurrences HYPHEN [c]) (occurrences PERIOD [c]));
        [apply consumes_char | intros; apply IH].
Qed.

Lemma strptime_ends_in_digit :
  forall text fmt d,
    strptime text (fmt ++ [pct_d]) = Some d -> ends_in_digit text = true.
Proof.
  intros text fmt d. unfold strptime.
  destruct (re_format (fmt ++ [pct_d]) (mk_fields None 1 1) text)
    as [|[f rest] others] eqn:Hre; [discriminate |].
  destruct rest as [|c0 rest]; [| discriminate].
  intros _.
  destruct (ends_on_digit_re_format fmt (mk_fields None 1 1) text f [])
    as (w & c & -> & Hc).
  { rewrite Hre. left. reflexivity. }
  unfold ends_in_digit. rewrite rev_app_distr. exact Hc.
Qed.

Lemma prepend_year_keeps_end :
  forall now text,
    ends_in_digit text = false -> ends_in_digit (prepend_year now text) = false.
Proof.
  intros now text H. unfold prepend_year.
  destruct (_ || _); [| exact H].
  unfold ends_in_digit in *. rewrite app_assoc, rev_app_distr.
  destruct (rev text) as [|c r]; [| exact H].
  cbn [app]. rewrite rev_app_distr. vm_compute. reflexivity.
Qed.

Lemma try_formats_no_final_digit :
  forall now fmts text,
    (forall fmt, In fmt fmts -> exists pre, fmt = pre ++ [pct_d]) ->
    ends_in_digit text = false ->
    try_formats now fmts text = true.
Proof.
  intros now fmts. induction fmts as [|fmt fmts IH]; intros text Hfmts Hend;
    [reflexivity |].
  rewrite try_formats_cons.
  pose proof (prepend_year_keeps_end now text Hend) as Hend'.
  destruct (Hfmts fmt (or_introl eq_refl)) as [pre ->].
  destruct (strptime (prepend_year now text) (pre ++ [pct_d])) as [d|] eqn:Hp.
  - apply strptime_ends_in_digit in Hp. congruence.
  - apply IH; [| exact Hend'].
    intros fmt' Hin. apply Hfmts. right. exact Hin.
Qed.

(** X3. A text that, once cleaned, is empty or ends in a hyphen or a
    period (no date at all, "2023.05.30." with its closing period) is kept
    at every moment: each format ends in the day, so no round parses it. *)
Theorem X3_text_without_final_digit_is_recent :
  forall now date_text,
    ends_in_digit (clean_date_text date_text) = false ->
    is_recent_article now date_text = true.
Proof.
  intros now date_text Hend. unfold is_recent_article.
  apply try_formats_no_final_digit; [| exact Hend].
  intros fmt Hin. unfold DATE_FORMATS in Hin.
  destruct Hin as [<- | [<- | [<- | [<- | []]]]].
  - exists [pct_Y; lit HYPHEN; pct_m; lit HYPHEN]. reflexivity.
  - exists [pct_Y; lit PERIOD; pct_m; lit PERIOD]. reflexivity.
  - exists [pct_m; lit HYPHEN]. reflexivity.
  - exists [pct_m; lit PERIOD]. reflexivity.
Qed.

Lemma X3_witness :
  ends_in_digit (clean_date_text (u "2023.05.30.")) = false /\
  is_recent_article Sample.jun_1_2024 (u "2023.05.30.") = true.
Proof.
  assert (H : ends_in_digit (clean_date_text (u "2023.05.30.")) = false)
    by (vm_compute; reflexivity).
  split; [exact H |].
  exact (X3_text_without_final_digit_is_recent Sample.jun_1_2024 (u "2023.05.30.") H).
Defined.

Lemma X2_witness :
  (0 <= year Sample.jun_1_2024)%Z /\
  is_recent_article Sample.jun_1_2024 (u "2024.05.01") = false /\
  exists parsed fmt article_date thirty_days_ago,
    date_shape Sample.jun_1_2024 (clean_date_text (u "2024.05.01")) parsed fmt /\
    strptime parsed fmt = Some article_date /\
    sub_days Sample.jun_1_2024 30 = Some thirty_days_ago /\
    Datetime.ge article_date thirty_days_ago = false.
Proof.
  assert (Hy : (0 <= year Sample.jun_1_2024)%Z) by (vm_compute; discriminate).
  assert (Hr : is_recent_article Sample.jun_1_2024 (u "2024.05.01") = false)
    by (vm_compute; reflexivity).
  split; [exact Hy | split; [exact Hr |]].
  exact (X2_rejected_text_is_a_parsed_old_date
           Sample.jun_1_2024 (u "2024.05.01") Hy Hr).
Defined.

(** ** The cutoff day *)

Lemma strptime_at_midnight :
  forall text fmt a, strptime text fmt = Some a -> at_midnight a.
Proof.
  intros text fmt a. unfold strptime.
  destruct (re_format fmt (mk_fields None 1 1) text) as [|[f rest] others];
    [discriminate |].
  destruct rest; [| discriminate].
  destruct (_ && _); [| discriminate].
  intros H. injection H as <-. repeat split.
Qed.

Lemma sub_days_keeps_time :
  forall t n t',
    sub_days t n = Some t' ->
    hour t' = hour t /\ minute t' = minute t /\
    second t' = second t /\ microsecond t' = microsecond t.
Proof.
  intros t n t'. unfold sub_days.
  destruct (_ && _); [| discriminate].
  destruct (ord2ymd (toordinal t - n)) as [[y m] d].
  intros H. injection H as <-. repeat split.
Qed.

Lemma ge_of_midnight :
  forall a b,
    at_midnight a -> time_not_negative b ->
    (Datetime.ge a b = true <-> later_day a b \/ (same_day a b /\ at_midnight b)).
Proof.
  intros [ya ma da ha mia sa ua] [yb mb db hb mib sb ub].
  unfold at_midnight, time_not_negative, later_day, same_day, Datetime.ge, cmp.
  cbn [year month day hour minute second microsecond].
  intros (-> & -> & -> & ->) (Hh & Hm & Hs & Hu).
  repeat match goal with
         | |- context [(?x ?= ?y)%Z] =>
             destruct (Z.compare_spec x y); cbn [lex]
         end;
    split; intros Hge; try discriminate Hge; try reflexivity; try lia.
Qed.

(** X4. When the cleaned text has one of the three date shapes and its
    round parses it, the article is kept exactly when its date is a later
    day than the day thirty days back, or that very day and the pass runs
    at 00:00:00.000000: the parsed date is a midnight, the cutoff carries
    the time of day of the pass. *)
Theorem X4_cutoff_day_is_kept_only_at_midnight :
  forall now date_text parsed fmt article_date thirty_days_ago,
    (0 <= year now)%Z ->
    time_not_negative now ->
    date_shape now (clean_date_text date_text) parsed fmt ->
    strptime parsed fmt = Some article_date ->
    sub_days now 30 = Some thirty_days_ago ->
    (is_recent_article now date_text = true <->
     later_day article_date thirty_days_ago \/
     (same_day article_date thirty_days_ago /\ at_midnight now)).
Proof.
  intros now date_text parsed fmt a ago Hyear Htime Hshape Hparse Hsub.
  assert (Hdec : is_recent_article now date_text = decided_by now parsed fmt).
  { rewrite (is_recent_article_by_shape now date_text Hyear). cbv zeta.
    destruct Hshape as [(Hh & Hp & -> & ->) | [(Hh & Hp & -> & ->) | (Hh & Hp & -> & ->)]];
      rewrite Hh, Hp; reflexivity. }
  rewrite Hdec. unfold decided_by. rewrite Hparse, Hsub.
  destruct (sub_days_keeps_time now 30 ago Hsub) as (Eh & Em & Es & Eu).
  assert (Hago : time_not_negative ago).
  { unfold time_not_negative in *. rewrite Eh, Em, Es, Eu. exact Htime. }
  rewrite (ge_of_midnight a ago (strptime_at_midnight _ _ _ Hparse) Hago).
  unfold at_midnight. rewrite Eh, Em, Es, Eu. reflexivity.
Qed.

Lemma X4_witness :
  (0 <= year Sample.jun_1_2024)%Z /\
  time_not_negative Sample.jun_1_2024 /\
  date_shape Sample.jun_1_2024 (clean_date_text (u "2024-05-02"))
             (u "2024-05-02") fmt_Y_m_d_hyphen /\
  strptime (u "2024-05-02") fmt_Y_m_d_hyphen
  = Some (mk_datetime 2024 5 2 0 0 0 0) /\
  sub_days Sample.jun_1_2024 30 = Some (mk_datetime 2024 5 2 12 30 0 0) /\
  (is_recent_article Sample.jun_1_2024 (u "2024-05-02") = true <->
   later_day (mk_datetime 2024 5 2 0 0 0 0) (mk_datetime 2024 5 2 12 30 0 0) \/
   (same_day (mk_datetime 2024 5 2 0 0 0 0) (mk_datetime 2024 5 2 12 30 0 0) /\
    at_midnight Sample.jun_1_2024)).
Proof.
  assert (Hy : (0 <= year Sample.jun_1_2024)%Z) by (vm_compute; discriminate).
  assert (Ht : time_not_negative Sample.jun_1_2024)
    by (repeat split; vm_compute; discriminate).
  assert (Hs : date_shape Sample.jun_1_2024 (clean_date_text (u "2024-05-02"))
                          (u "2024-05-02") fmt_Y_m_d_hyphen).
  { right. left. split; [vm_compute; reflexivity |].
    split; [vm_compute; reflexivity |].
    split; [vm_compute; reflexivity | reflexivity]. }
  assert (Hp : strptime (u "2024-05-02") fmt_Y_m_d_hyphen
               = Some (mk_datetime 2024 5 2 0 0 0 0))
    by (vm_compute; reflexivity).
  assert (Hsub : sub_days Sample.jun_1_2024 30
                 = Some (mk_datetime 2024 5 2 12 30 0 0))
    by (vm_compute; reflexivity).
  split; [exact Hy | split; [exact Ht | split; [exact Hs | split; [exact Hp |
    split; [exact Hsub |]]]]].
  exact (X4_cutoff_day_is_kept_only_at_midnight
           Sample.jun_1_2024 (u "2024-05-02") (u "2024-05-02") fmt_Y_m_d_hyphen
           (mk_datetime 2024 5 2 0 0 0 0) (mk_datetime 2024 5 2 12 30 0 0)
           Hy Ht Hs Hp Hsub).
Defined.

(** ** The base of an endpoint *)

Lemma join_cons_cons :
  forall sep p q rest,
    join sep (p :: q :: rest) = p ++ sep ++ join sep (q :: rest).
Proof. reflexivity. Qed.

Lemma join_push_head :
  forall sep c p rest,
    join sep ((c :: p) :: rest) = c :: join sep (p :: rest).
Proof. intros sep c p [|q rest]; reflexivity. Qed.

(** The first [n] pieces of a text, joined again, are a prefix of it. *)
Lemma join_firstn_split_prefix :
  forall sep s n,
    exists rest, s = join [sep] (firstn n (split sep s)) ++ rest.
Proof.
  intros sep s. induction s as [|c s IH]; intros n.
  - exists []. destruct n as [|[|n]]; reflexivity.
  - destruct n as [|n]; [exists (c :: s); reflexivity |].
    cbn [split]. destruct (N.eqb_spec c sep) as [-> | Hc].
    + cbn [firstn]. destruct (IH n) as [rest Hrest].
      destruct (firstn n (split sep s)) as [|q pieces] eqn:Hq.
      * exists (sep :: s). reflexivity.
      * exists rest. rewrite join_cons_cons. cbn [app]. f_equal. exact Hrest.
    + destruct (IH (S n)) as [rest Hrest].
      destruct (split sep s) as [|piece pieces].
      * exists rest. cbn [firstn] in *. destruct n; cbn in *; congruence.
      * exists rest. cbn [firstn] in *. rewrite join_push_head.
        cbn [app]. f_equal. exact Hrest.
Qed.

(** Joining all the pieces gives the text back. *)
Lemma join_split :
  forall sep s, join [sep] (split sep s) = s.
Proof.
  intros sep s. induction s as [|c s IH]; [reflexivity |].
  cbn [split]. destruct (N.eqb_spec c sep) as [-> | Hc].
  - pose proof (split_length sep s) as Hlen.
    destruct (split sep s) as [|q pieces]; [discriminate Hlen |].
    rewrite join_cons_cons. cbn [app]. f_equal. exact IH.
  - pose proof (split_length sep s) as Hlen.
    destruct (split sep s) as [|piece pieces]; [discriminate Hlen |].
    rewrite join_push_head. f_equal. exact IH.
Qed.

(** X5. A relative link is stored behind a prefix of the source's
    endpoint: the base never holds anything that is not in the endpoint,
    and it is the whole endpoint when the endpoint has at most two
    slashes (no path after the host). *)
Theorem X5_base_is_a_prefix_of_the_endpoint :
  forall config_url l,
    l <> [] ->
    startswith l (u "http") = false ->
    exists base rest,
      config_url = base ++ rest /\
      resolve_link config_url l = base ++ l /\
      (occurrences SLASH config_url <= 2 -> base = config_url).
Proof.
  intros config_url l Hne Hrel.
  destruct (join_firstn_split_prefix SLASH config_url 3) as [rest Hrest].
  exists (join [SLASH] (firstn 3 (split SLASH config_url))), rest.
  split; [exact Hrest |].
  split; [apply resolve_link_relative; assumption |].
  intros Hocc. rewrite firstn_all2; [apply join_split |].
  rewrite split_length. lia.
Qed.

Lemma X5_witness :
  u "/view?id=5" <> [] /\
  startswith (u "/view?id=5") (u "http") = false /\
  exists base rest,
    u "https://www.moe.go.kr" = base ++ rest /\
    resolve_link (u "https://www.moe.go.kr") (u "/view?id=5")
    = base ++ u "/view?id=5" /\
    (occurrences SLASH (u "https://www.moe.go.kr") <= 2 ->
     base = u "https://www.moe.go.kr").
Proof.
  assert (Hne : u "/view?id=5" <> []) by (vm_compute; discriminate).
  assert (Hrel : startswith (u "/view?id=5") (u "http") = false)
    by (vm_compute; reflexivity).
  split; [exact Hne | split; [exact Hrel |]].
  exact (X5_base_is_a_prefix_of_the_endpoint
           (u "https://www.moe.go.kr") (u "/view?id=5") Hne Hrel).
Defined.

(** X6. For an endpoint [scheme//host/path] with no slash inside the
    scheme and the host pieces, a relative link is stored as
    [scheme//host] followed by the link, whatever the path is; nothing is
    put between the host and a link that does not begin with a slash. *)
Theorem X6_relative_link_goes_behind_scheme_and_host :
  forall scheme host path l,
    ~ In SLASH scheme ->
    ~ In SLASH host ->
    l <> [] ->
    startswith l (u "http") = false ->
    resolve_link (scheme ++ [SLASH; SLASH] ++ host ++ SLASH :: path) l
    = scheme ++ [SLASH; SLASH] ++ host ++ l.
Proof.
  intros scheme host path l Hs Hh Hne Hrel.
  rewrite (resolve_link_relative _ l Hne Hrel).
  rewrite (base_url_scheme_host scheme host path Hs Hh).
  rewrite <- !app_assoc. reflexivity.
Qed.

Lemma no_slash_by_count :
  forall s, occurrences SLASH s = 0 -> ~ In SLASH s.
Proof.
  intros s. unfold occurrences. induction s as [|c s IH]; cbn [filter];
    intros H Hin; [exact Hin |].
  destruct (N.eqb_spec c SLASH) as [-> | Hc]; [discriminate H |].
  destruct Hin as [-> | Hin]; [congruence | exact (IH H Hin)].
Qed.

Lemma X6_witness :
  ~ In SLASH (u "https:") /\
  ~ In SLASH (u "www.moe.go.kr") /\
  u "view.do?id=7" <> [] /\
  startswith (u "view.do?id=7") (u "http") = false /\
  resolve_link (u "https:" ++ [SLASH; SLASH] ++ u "www.moe.go.kr"
                  ++ SLASH :: u "boardCnts/list.do?boardID=294")
               (u "view.do?id=7")
  = u "https:" ++ [SLASH; SLASH] ++ u "www.moe.go.kr" ++ u "view.do?id=7".
Proof.
  assert (Hs : ~ In SLASH (u "https:"))
    by (apply no_slash_by_count; vm_compute; reflexivity).
  assert (Hh : ~ In SLASH (u "www.moe.go.kr"))
    by (apply no_slash_by_count; vm_compute; reflexivity).
  assert (Hne : u "view.do?id=7" <> []) by (vm_compute; discriminate).
  assert (Hrel : startswith (u "view.do?id=7") (u "http") = false)
    by (vm_compute; reflexivity).
  split; [exact Hs | split; [exact Hh | split; [exact Hne | split; [exact Hrel |]]]].
  exact (X6_relative_link_goes_behind_scheme_and_host
           (u "https:") (u "www.moe.go.kr") (u "boardCnts/list.do?boardID=294")
           (u "view.do?id=7") Hs Hh Hne Hrel).
Defined.

(** ** What a source and a pass can yield *)

Lemma extract_articles_length :
  forall lower env office_name config elements,
    List.length (extract_articles lower env office_name config elements)
    <= List.length elements.
Proof.
  intros lower env office_name config elements.
  induction elements as [|element rest IH]; cbn [extract_articles List.length].
  - apply Nat.le_refl.
  - destruct (extract_article lower env office_name config element);
      cbn [List.length]; lia.
Qed.

Lemma articles_of_at_most_five :
  forall lower env office, List.length (articles_of lower env office) <= 5.
Proof.
  intros lower env [office_name config]. unfold articles_of. cbn [fst snd].
  unfold crawl_education_office.
  destruct (fetch_page env config) as [soup|e]; cbn [bind try_except List.length];
    [| lia].
  eapply Nat.le_trans; [apply extract_articles_length |].
  unfold candidate_rows. rewrite length_firstn. apply Nat.le_min_l.
Qed.

Lemma flat_map_length_bound :
  forall (A B : Type) (f : A -> list B) (k : nat) (l : list A),
    (forall x, List.length (f x) <= k) ->
    List.length (flat_map f l) <= k * List.length l.
Proof.
  intros A B f k l Hf. induction l as [|x l IH]; cbn [flat_map List.length].
  - lia.
  - rewrite length_app. specialize (Hf x). lia.
Qed.

(** X7. A source never yields more than five articles, whatever its page
    holds, and the success record of a pass over the four sources never
    counts more than twenty. *)
Theorem X7_at_most_five_per_source_twenty_per_pass :
  forall lower env,
    (forall office_name config,
        exists articles,
          crawl_education_office lower env office_name config = Return articles /\
          List.length articles <= 5) /\
    List.length (crawl_offices lower env EDUCATION_OFFICES []) <= 20 /\
    (forall db n timestamp db',
        weekly_news_crawler lower env db
        = Return (status_success n timestamp, db') -> n <= 20).
Proof.
  intros lower env.
  assert (Hall : List.length (crawl_offices lower env EDUCATION_OFFICES []) <= 20).
  { rewrite crawl_offices_flat_map. cbn [app].
    apply (flat_map_length_bound _ _ (articles_of lower env) 5 EDUCATION_OFFICES).
    apply articles_of_at_most_five. }
  split; [| split; [exact Hall |]].
  - intros office_name config.
    pose proof (articles_of_at_most_five lower env (office_name, config)) as Hfive.
    unfold articles_of in Hfive. cbn [fst snd] in Hfive.
    destruct (crawl_education_office_never_raises lower env office_name config)
      as [articles Hc].
    rewrite Hc in Hfive. exists articles. auto.
  - intros db n timestamp db'. unfold weekly_news_crawler, crawl_pass.
    destruct (firestore_client env) as [[]|e]; cbn [bind try_except];
      [| discriminate].
    destruct (match crawl_offices lower env EDUCATION_OFFICES [] with
              | [] => Return db
              | _ :: _ => _
              end) as [db1|e]; cbn [bind try_except]; [| discriminate].
    intros H. injection H as <- _ _. exact Hall.
Qed.

Lemma X7_witness :
  weekly_news_crawler Sample.ascii_lower Sample.eight_row_site Sample.empty_db
  = Return (status_success 16 Sample.feb_1_2024, Sample.after_eight_row_pass) /\
  16 <= 20.
Proof.
  assert (H : weekly_news_crawler Sample.ascii_lower Sample.eight_row_site
                Sample.empty_db
              = Return (status_success 16 Sample.feb_1_2024,
                        Sample.after_eight_row_pass))
    by (vm_compute; reflexivity).
  split; [exact H |].
  exact (proj2 (proj2 (X7_at_most_five_per_source_twenty_per_pass
                         Sample.ascii_lower Sample.eight_row_site))
               Sample.empty_db 16 Sample.feb_1_2024
               Sample.after_eight_row_pass H).
Defined.

(** ** The fields of an extracted article *)

Lemma extract_articles_In :
  forall lower env office_name config elements article,
    In article (extract_articles lower env office_name config elements) ->
    exists element,
      In element elements /\
      extract_article lower env office_name config element = Some article.
Proof.
  intros lower env office_name config elements article.
  induction elements as [|element rest IH]; cbn [extract_articles]; [intros [] |].
  destruct (extract_article lower env office_name config element) as [a|] eqn:He.
  - intros [<- | Hin].
    + exists element. split; [left; reflexivity | exact He].
    + destruct (IH Hin) as (el & Hel & Hx). exists el. split; [right |]; assumption.
  - intros Hin. destruct (IH Hin) as (el & Hel & Hx).
    exists el. split; [right |]; assumption.
Qed.

Lemma crawl_education_office_In :
  forall lower env office_name config articles article,
    crawl_education_office lower env office_name config = Return articles ->
    In article articles ->
    exists element,
      extract_article lower env office_name config element = Some article.
Proof.
  intros lower env office_name config articles article.
  unfold crawl_education_office.
  destruct (fetch_page env config) as [soup|e]; cbn [bind try_except];
    intros H; injection H as <-; [| intros []].
  intros Hin. apply extract_articles_In in Hin.
  destruct Hin as (element & _ & He). exists element. exact He.
Qed.

Lemma lstrip_head :
  forall s c rest, lstrip s = c :: rest -> isspace c = false.
Proof.
  induction s as [|x s IH]; intros c rest; cbn [lstrip]; [discriminate |].
  destruct (isspace x) eqn:Hx; [apply IH |].
  intros H. injection H as <- _. exact Hx.
Qed.

Lemma lstrip_suffix :
  forall s, exists pre, s = pre ++ lstrip s.
Proof.
  induction s as [|x s [pre IH]]; cbn [lstrip]; [exists []; reflexivity |].
  destruct (isspace x).
  - exists (x :: pre). cbn [app]. f_equal. exact IH.
  - exists []. reflexivity.
Qed.

(** [strip] leaves no white space at either end. *)
Lemma strip_ends :
  forall s,
    (forall c rest, strip s = c :: rest -> isspace c = false) /\
    (forall init c, strip s = init ++ [c] -> isspace c = false).
Proof.
  intros s. unfold strip.
  destruct (lstrip_suffix (rev (lstrip s))) as [pre Hpre].
  set (x := lstrip (rev (lstrip s))) in *.
  split.
  - intros c rest Hc.
    assert (Ha : lstrip s = rev x ++ rev pre).
    { rewrite <- (rev_involutive (lstrip s)), Hpre, rev_app_distr. reflexivity. }
    rewrite Hc in Ha. cbn [app] in Ha.
    exact (lstrip_head s c _ Ha).
  - intros init c Hc.
    assert (Hx : x = c :: rev init).
    { rewrite <- (rev_involutive x), Hc, rev_app_distr. reflexivity. }
    exact (lstrip_head (rev (lstrip s)) c _ Hx).
Qed.

(** X8. Every article a source yields carries the source's name, a date
    text the filter accepts at the moment of the pass, and the category and
    the summary that the classifier and the summarizer give for its own
    title. *)
Theorem X8_extracted_article_fields :
  forall lower env office_name config,
    exists articles,
      crawl_education_office lower env office_name config = Return articles /\
      forall article,
        In article articles ->
        source article = office_name /\
        is_recent_article (now env) (date article) = true /\
        category article = classify_article lower (title article) /\
        content article = extract_content_summary (title article).
Proof.
  intros lower env office_name config.
  destruct (crawl_education_office_never_raises lower env office_name config)
    as [articles Hc].
  exists articles. split; [exact Hc |].
  intros article Hin.
  destruct (crawl_education_office_In _ _ _ _ _ _ Hc Hin) as [element He].
  unfold extract_article in He.
  destruct (select_one element (title_selector config)) as [title_element|];
    [| discriminate].
  destruct (is_recent_article (now env) _) eqn:Hrecent; [| discriminate].
  injection He as <-. cbn [source date category content title].
  auto.
Qed.

(** X9. The title and the date text of every article a source yields have
    no white space at their ends. *)
Theorem X9_extracted_texts_are_trimmed :
  forall lower env office_name config,
    exists articles,
      crawl_education_office lower env office_name config = Return articles /\
      forall article,
        In article articles ->
        (forall c rest, title article = c :: rest -> isspace c = false) /\
        (forall init c, title article = init ++ [c] -> isspace c = false) /\
        (forall c rest, date article = c :: rest -> isspace c = false) /\
        (forall init c, date article = init ++ [c] -> isspace c = false).
Proof.
  intros lower env office_name config.
  destruct (crawl_education_office_never_raises lower env office_name config)
    as [articles Hc].
  exists articles. split; [exact Hc |].
  intros article Hin.
  destruct (crawl_education_office_In _ _ _ _ _ _ Hc Hin) as [element He].
  unfold extract_article in He.
  destruct (select_one element (title_selector config)) as [title_element|];
    [| discriminate].
  destruct (is_recent_article (now env) _); [| discriminate].
  injection He as <-. cbn [title date].
  destruct (strip_ends (get_text title_element)) as [Ht1 Ht2].
  split; [exact Ht1 | split; [exact Ht2 |]].
  destruct (select_one element (date_selector config)) as [date_element|].
  - destruct (strip_ends (get_text date_element)) as [Hd1 Hd2]. split; assumption.
  - split; [discriminate |]. intros init c H. destruct init; discriminate H.
Qed.

(** ** What a save does to the collection *)

Lemma save_articles_appends :
  forall env db articles db',
    save_articles_to_firestore env db articles = Return db' ->
    exists added,
      news db' = news db ++ added /\
      map fields added = filter (is_new db) articles /\
      Forall (fun d => created_at d = server_time db) added.
Proof.
  intros env db articles db'. unfold save_articles_to_firestore.
  destruct (stage_articles env db articles (next_id db) []) as [staged|e] eqn:Hst;
    cbn [bind]; [| discriminate].
  apply stage_articles_batch in Hst. cbn [map app] in Hst.
  unfold commit. destruct (batch_commit env) as [[]|e]; cbn [bind]; [| discriminate].
  intros H. injection H as <-. cbn [news].
  exists (map (fun w => mk_doc (fst w) (snd w) (server_time db)) (snd staged)).
  split; [reflexivity |]. split.
  - rewrite map_map. cbn [fields]. exact Hst.
  - apply Forall_forall. intros d Hd. apply in_map_iff in Hd.
    destruct Hd as (w & <- & _). reflexivity.
Qed.

Lemma is_new_false :
  forall db article,
    is_new db article = false <->
    exists d, In d (news db) /\ same_key (fields d) article = true.
Proof.
  intros db article. unfold is_new. rewrite negb_false_iff, existsb_exists.
  reflexivity.
Qed.

Lemma filter_none :
  forall (A : Type) (f : A -> bool) (l : list A),
    (forall x, In x l -> f x = false) -> filter f l = [].
Proof.
  intros A f l. induction l as [|x l IH]; intros H; cbn [filter]; [reflexivity |].
  rewrite (H x (or_introl eq_refl)). apply IH. intros y Hy. apply H. right. exact Hy.
Qed.

(** After a save no candidate of the pass is new any more. *)
Lemma saved_candidates_are_stored :
  forall env db articles db',
    save_articles_to_firestore env db articles = Return db' ->
    forall article, In article articles -> is_new db' article = false.
Proof.
  intros env db articles db' Hsave article Hin.
  destruct (save_articles_appends _ _ _ _ Hsave) as (added & Hnews & Hfields & _).
  apply is_new_false. rewrite Hnews.
  destruct (is_new db article) eqn:Hnew.
  - assert (Ha : In article (map fields added)).
    { rewrite Hfields. apply filter_In. split; assumption. }
    apply in_map_iff in Ha. destruct Ha as (d & Hd & Hdin).
    exists d. split; [apply in_or_app; right; exact Hdin |].
    rewrite Hd. apply same_key_eq. reflexivity.
  - apply is_new_false in Hnew. destruct Hnew as (d & Hd & Hk).
    exists d. split; [apply in_or_app; left; exact Hd | exact Hk].
Qed.

(** X10. A save only appends: the documents that were in the collection
    stay, in place and unchanged, and what is added is one document for
    every candidate the collection had no document of the same title and
    source for before the pass, in candidate order, all with the one
    creation time of the batch. *)
Theorem X10_save_only_appends_the_new_candidates :
  forall env db articles,
    query_get env = Return tt ->
    batch_commit env = Return tt ->
    exists db' added,
      save_articles_to_firestore env db articles = Return db' /\
      news db' = news db ++ added /\
      map fields added = filter (is_new db) articles /\
      Forall (fun d => created_at d = server_time db) added.
Proof.
  intros env db articles Hq Hc.
  destruct (save_articles_returns env db articles Hq Hc) as [db' Hsave].
  destruct (save_articles_appends _ _ _ _ Hsave) as (added & H).
  exists db', added. split; [exact Hsave | exact H].
Qed.

(** X11. When the keys (title, source) of the collection are pairwise
    different and so are those of the candidates, they are pairwise
    different after the save too. *)
Theorem X11_distinct_candidates_keep_keys_unique :
  forall env db articles,
    query_get env = Return tt ->
    batch_commit env = Return tt ->
    NoDup (store_keys db) ->
    NoDup (map key articles) ->
    exists db',
      save_articles_to_firestore env db articles = Return db' /\
      NoDup (store_keys db').
Proof.
  intros env db articles Hq Hc Hstore Hcand.
  destruct (save_articles_returns env db articles Hq Hc) as [db' Hsave].
  exists db'. split; [exact Hsave |].
  exact (save_articles_distinct_candidates env db articles db' Hstore Hcand Hsave).
Qed.

(** X12. Saving the same candidates a second time writes nothing: after
    the first save every candidate is found by the existence check, so the
    second batch is empty and the collection stays as the first save left
    it. *)
Theorem X12_second_save_writes_nothing :
  forall env db articles,
    query_get env = Return tt ->
    batch_commit env = Return tt ->
    exists db1 db2,
      save_articles_to_firestore env db articles = Return db1 /\
      (forall article, In article articles -> is_new db1 article = false) /\
      save_articles_to_firestore env db1 articles = Return db2 /\
      news db2 = news db1.
Proof.
  intros env db articles Hq Hc.
  destruct (save_articles_returns env db articles Hq Hc) as [db1 Hsave1].
  destruct (save_articles_returns env db1 articles Hq Hc) as [db2 Hsave2].
  pose proof (saved_candidates_are_stored _ _ _ _ Hsave1) as Hstored.
  exists db1, db2. split; [exact Hsave1 | split; [exact Hstored | split; [exact Hsave2 |]]].
  destruct (save_articles_appends _ _ _ _ Hsave2) as (added & Hnews & Hfields & _).
  rewrite (filter_none _ _ _ Hstored) in Hfields.
  destruct added; [| discriminate Hfields].
  rewrite Hnews, app_nil_r. reflexivity.
Qed.

Lemma where_category_app :
  forall c docs docs',
    where_category c (docs ++ docs')
    = where_category c docs ++ where_category c docs'.
Proof. intros c docs docs'. unfold where_category. apply filter_app. Qed.

(** X13. A new candidate that was saved is listed by the query of its
    category, as long as that category holds at most five documents after
    the save. *)
Theorem X13_saved_article_is_listed :
  forall env db articles article,
    query_get env = Return tt ->
    batch_commit env = Return tt ->
    In article articles ->
    is_new db article = true ->
    exists db',
      save_articles_to_firestore env db articles = Return db' /\
      (List.length (where_category (category article) (news db')) <= 5 ->
       exists d,
         fields d = article /\
         In d (latest_of_category db' (category article))).
Proof.
  intros env db articles article Hq Hc Hin Hnew.
  destruct (save_articles_returns env db articles Hq Hc) as [db' Hsave].
  exists db'. split; [exact Hsave |]. intros Hfew.
  destruct (save_articles_appends _ _ _ _ Hsave) as (added & Hnews & Hfields & _).
  assert (Ha : In article (map fields added)).
  { rewrite Hfields. apply filter_In. split; assumption. }
  apply in_map_iff in Ha. destruct Ha as (d & Hd & Hdin).
  exists d. split; [exact Hd |].
  unfold latest_of_category.
  pose proof (order_by_permutation (where_category (category article) (news db')))
    as Hperm.
  rewrite firstn_all2
    by (rewrite <- (Permutation_length Hperm); exact Hfew).
  apply (Permutation_in _ Hperm). apply where_category_In.
  split; [rewrite Hnews; apply in_or_app; right; exact Hdin |].
  rewrite Hd. reflexivity.
Qed.

Lemma X10_witness :
  query_get Sample.all_sites_up = Return tt /\
  batch_commit Sample.all_sites_up = Return tt /\
  exists db' added,
    save_articles_to_firestore Sample.all_sites_up Sample.stored_one_per_category
                               (Sample.an_article major_news (u "정시 안내")
                                  :: Sample.one_per_category)
    = Return db' /\
    news db' = news Sample.stored_one_per_category ++ added /\
    map fields added
    = filter (is_new Sample.stored_one_per_category)
             (Sample.an_article major_news (u "정시 안내")
                :: Sample.one_per_category) /\
    Forall (fun d => created_at d = server_time Sample.stored_one_per_category)
           added.
Proof.
  split; [reflexivity | split; [reflexivity |]].
  exact (X10_save_only_appends_the_new_candidates
           Sample.all_sites_up Sample.stored_one_per_category
           (Sample.an_article major_news (u "정시 안내") :: Sample.one_per_category)
           eq_refl eq_refl).
Defined.

Lemma X11_witness :
  query_get Sample.all_sites_up = Return tt /\
  batch_commit Sample.all_sites_up = Return tt /\
  NoDup (store_keys Sample.empty_db) /\
  NoDup (map key Sample.one_per_category) /\
  exists db',
    save_articles_to_firestore Sample.all_sites_up Sample.empty_db
                               Sample.one_per_category = Return db' /\
    NoDup (store_keys db').
Proof.
  assert (Hstore : NoDup (store_keys Sample.empty_db)) by constructor.
  assert (Hcand : NoDup (map key Sample.one_per_category)).
  { vm_compute.
    repeat (constructor;
            [ intros Hin;
              repeat (destruct Hin as [Hin | Hin]; [discriminate Hin |]);
              exact Hin | ]).
    constructor. }
  split; [reflexivity | split; [reflexivity | split; [exact Hstore |
    split; [exact Hcand |]]]].
  exact (X11_distinct_candidates_keep_keys_unique
           Sample.all_sites_up Sample.empty_db Sample.one_per_category
           eq_refl eq_refl Hstore Hcand).
Defined.

Lemma X12_witness :
  query_get Sample.all_sites_up = Return tt /\
  batch_commit Sample.all_sites_up = Return tt /\
  exists db1 db2,
    save_articles_to_firestore Sample.all_sites_up Sample.empty_db
                               Sample.one_per_category = Return db1 /\
    (forall article,
        In article Sample.one_per_category -> is_new db1 article = false) /\
    save_articles_to_firestore Sample.all_sites_up db1 Sample.one_per_category
    = Return db2 /\
    news db2 = news db1.
Proof.
  split; [reflexivity | split; [reflexivity |]].
  exact (X12_second_save_writes_nothing
           Sample.all_sites_up Sample.empty_db Sample.one_per_category
           eq_refl eq_refl).
Defined.

Lemma X13_witness :
  query_get Sample.all_sites_up = Return tt /\
  batch_commit Sample.all_sites_up = Return tt /\
  In (Sample.an_article exam_schedule (u "접수 마감")) Sample.one_per_category /\
  is_new Sample.empty_db (Sample.an_article exam_schedule (u "접수 마감")) = true /\
  exists db',
    save_articles_to_firestore Sample.all_sites_up Sample.empty_db
                               Sample.one_per_category = Return db' /\
    (List.length (where_category
                    (category (Sample.an_article exam_schedule (u "접수 마감")))
                    (news db')) <= 5 ->
     exists d,
       fields d = Sample.an_article exam_schedule (u "접수 마감") /\
       In d (latest_of_category db'
               (category (Sample.an_article exam_schedule (u "접수 마감"))))).
Proof.
  assert (Hin : In (Sample.an_article exam_schedule (u "접수 마감"))
                   Sample.one_per_category)
    by (right; right; left; reflexivity).
  split; [reflexivity | split; [reflexivity | split; [exact Hin |
    split; [reflexivity |]]]].
  exact (X13_saved_article_is_listed
           Sample.all_sites_up Sample.empty_db Sample.one_per_category
           (Sample.an_article exam_schedule (u "접수 마감"))
           eq_refl eq_refl Hin eq_refl).
Defined.

(** ** What a pass leaves behind *)

(** X14. Whatever the sites and the store do, the scheduled entry point
    returns a record.  With an error record the collection is what it was
    before the pass; with a success record the count is the number of
    articles the sources yielded, and the collection is the old one
    followed by one document for every yielded article that was new. *)
Theorem X14_pass_outcome :
  forall lower env db,
    exists record db',
      weekly_news_crawler lower env db = Return (record, db') /\
      match record with
      | status_error _ _ => db' = db
      | status_success n _ =>
          n = List.length (crawl_offices lower env EDUCATION_OFFICES []) /\
          exists added,
            news db' = news db ++ added /\
            map fields added
            = filter (is_new db) (crawl_offices lower env EDUCATION_OFFICES [])
      end.
Proof.
  intros lower env db. unfold weekly_news_crawler, crawl_pass.
  destruct (firestore_client env) as [[]|e]; cbn [bind try_except].
  2: { eexists _, _. split; [reflexivity | reflexivity]. }
  destruct (crawl_offices lower env EDUCATION_OFFICES []) as [|a rest] eqn:Hall.
  - cbn [bind try_except]. exists (status_success 0 (now env)), db.
    split; [reflexivity |]. split; [reflexivity |].
    exists []. rewrite app_nil_r. split; reflexivity.
  - destruct (save_articles_to_firestore env db (a :: rest)) as [db1|e] eqn:Hsave;
      cbn [bind try_except].
    + exists (status_success (List.length (a :: rest)) (now env)), db1.
      split; [reflexivity |]. split; [reflexivity |].
      destruct (save_articles_appends _ _ _ _ Hsave) as (added & Hnews & Hfields & _).
      exists added. split; assumption.
    + eexists _, _. split; [reflexivity | reflexivity].
Qed.

Lemma flat_map_nil :
  forall (A B : Type) (f : A -> list B) (l : list A),
    (forall x, In x l -> f x = []) -> flat_map f l = [].
Proof.
  intros A B f l. induction l as [|x l IH]; intros H; cbn [flat_map]; [reflexivity |].
  rewrite (H x (or_introl eq_refl)), IH; [reflexivity |].
  intros y Hy. apply H. right. exact Hy.
Qed.

(** X15. When fetching fails for every source of the registry, the store
    is not called at all: with a Firestore client at hand the pass returns
    the success record with count 0 and leaves the collection alone, even
    when every query and every commit would raise. *)
Theorem X15_pass_with_all_sources_down :
  forall lower env db,
    firestore_client env = Return tt ->
    (forall office_name config,
        In (office_name, config) EDUCATION_OFFICES ->
        exists e, fetch_page env config = Raise e) ->
    weekly_news_crawler lower env db
    = Return (status_success 0 (now env), db).
Proof.
  intros lower env db Hclient Hdown.
  assert (Hnone : crawl_offices lower env EDUCATION_OFFICES [] = []).
  { rewrite crawl_offices_flat_map. cbn [app]. apply flat_map_nil.
    intros [office_name config] Hin. unfold articles_of. cbn [fst snd].
    destruct (Hdown office_name config Hin) as [e He].
    rewrite (crawl_education_office_failed_fetch _ _ _ _ _ He). reflexivity. }
  unfold weekly_news_crawler, crawl_pass. rewrite Hclient, Hnone. reflexivity.
Qed.

Lemma X15_witness :
  firestore_client Sample.nothing_to_store = Return tt /\
  query_get Sample.nothing_to_store = Raise (Exception (u "503 Unavailable")) /\
  batch_commit Sample.nothing_to_store = Raise (Exception (u "503 Unavailable")) /\
  (forall office_name config,
      In (office_name, config) EDUCATION_OFFICES ->
      exists e, fetch_page Sample.nothing_to_store config = Raise e) /\
  weekly_news_crawler Sample.ascii_lower Sample.nothing_to_store
                      Sample.stored_one_per_category
  = Return (status_success 0 (now Sample.nothing_to_store),
            Sample.stored_one_per_category).
Proof.
  assert (Hdown : forall office_name config,
             In (office_name, config) EDUCATION_OFFICES ->
             exists e, fetch_page Sample.nothing_to_store config = Raise e).
  { intros office_name config _.
    exists (Exception (u "Connection refused")). reflexivity. }
  split; [reflexivity | split; [reflexivity | split; [reflexivity |
    split; [exact Hdown |]]]].
  exact (X15_pass_with_all_sources_down
           Sample.ascii_lower Sample.nothing_to_store
           Sample.stored_one_per_category eq_refl Hdown).
Defined.

(** ** Rows without a date cell *)




(** ** The university keywords *)

Lemma is_substring_trans :
  forall a b c, is_substring a b -> is_substring b c -> is_substring a c.
Proof.
  intros a b c (p1 & q1 & ->) (p2 & q2 & ->).
  exists (p2 ++ p1), (q1 ++ q2). rewrite <- !app_assoc. reflexivity.
Qed.

(** X17. The keyword '대학교' never decides a category: a title is
    [university_news] exactly when its lower-cased form has no admissions
    term and contains '대학', which every text containing '대학교' does. *)
Theorem X17_university_news_is_decided_by_one_keyword :
  forall (lower : pystr -> pystr) (title : pystr),
    classify_article lower title = university_news <->
    ~ has_word ADMISSION_WORDS (lower title) /\
    is_substring (u "대학") (lower title).
Proof.
  intros lower title.
  assert (Huniv : has_word UNIVERSITY_WORDS (lower title)
                  <-> is_substring (u "대학") (lower title)).
  { split.
    - intros (w & [<- | [<- | []]] & Hw); [| exact Hw].
      apply (is_substring_trans _ (u "대학교")); [| exact Hw].
      exists [], (u "교"). vm_compute. reflexivity.
    - intros H. exists (u "대학"). split; [right; left; reflexivity | exact H]. }
  unfold classify_article.
  destruct (any_word_in ADMISSION_WORDS (lower title)) eqn:HA;
    [ apply any_word_in_has_word in HA | apply any_word_in_no_word in HA ].
  { split; [discriminate | intros [Hno _]; contradiction]. }
  destruct (any_word_in UNIVERSITY_WORDS (lower title)) eqn:HU;
    [ apply any_word_in_has_word in HU | apply any_word_in_no_word in HU ].
  { split; [intros _; split; [exact HA | apply Huniv; exact HU] | reflexivity]. }
  destruct (any_word_in SCHEDULE_WORDS (lower title));
    (split; [discriminate | intros [_ H]; apply Huniv in H; contradiction]).
Qed.

(* ================================================================== *)
(** * The read endpoint *)
(* ================================================================== *)

Lemma json_dumps_news_listed_document :
  forall data c d docs,
    In (c, d :: docs) data ->
    json_dumps_news data = Raise (Exception NOT_JSON_SERIALIZABLE).
Proof.
  intros data c d docs Hin. unfold json_dumps_news.
  destruct (forallb _ data) eqn:Hall; [| reflexivity].
  rewrite forallb_forall in Hall. specialize (Hall _ Hin). discriminate Hall.
Qed.

Lemma every_category_is_a_key :
  forall c, In c NEWS_CATEGORIES.
Proof. intros []; cbn; auto. Qed.

(** Whenever the collection holds a document, a GET is answered with 500
    and an error body, whatever the client, the clock and the queries do:
    the document is listed under its category (with at most four others, or
    five newer ones are), and the rendering of the mapping raises. *)
Lemma get_latest_news_with_stored_document :
  forall env db method d,
    PyStr.eqb method (u "OPTIONS") = false ->
    In d (news db) ->
    exists message,
      get_latest_news env db method
      = mk_http (body_error message) 500 CORS_HEADERS.
Proof.
  intros env db method d Hm Hd. unfold get_latest_news. rewrite Hm.
  unfold latest_news_body.
  destruct (firestore_client env) as [[]|e]; cbn [bind]; [| eauto].
  destruct (sub_days (now env) 7) as [week_ago|]; cbn [bind]; [| eauto].
  destruct (query_get env) as [[]|e]; cbn [bind]; [| eauto].
  set (c := category (fields d)).
  assert (Hlen : List.length (latest_of_category db c) <> 0).
  { rewrite latest_of_category_length.
    assert (Hin : In d (where_category c (news db)))
      by (apply where_category_In; split; [exact Hd | reflexivity]).
    destruct (where_category c (news db)); [destruct Hin | cbn; lia]. }
  destruct (latest_of_category db c) as [|listed docs] eqn:Hlist;
    [exfalso; apply Hlen; reflexivity |].
  rewrite (json_dumps_news_listed_document (news_data db) c listed docs).
  - eauto.
  - unfold news_data. apply in_map_iff. exists c.
    split; [rewrite Hlist; reflexivity | apply every_category_is_a_key].
Qed.

(** With an empty collection, a client, a clock past the first week of
    year 1 and queries that go through, a GET is answered with 200 and the
    mapping of the four categories to empty lists. *)
Lemma get_latest_news_of_empty_collection :
  forall env db method week_ago,
    PyStr.eqb method (u "OPTIONS") = false ->
    firestore_client env = Return tt ->
    sub_days (now env) 7 = Some week_ago ->
    query_get env = Return tt ->
    news db = [] ->
    get_latest_news env db method
    = mk_http (body_news [ (major_news, []); (education_office_news, []);
                           (university_news, []); (exam_schedule, []) ])
              200 CORS_HEADERS.
Proof.
  intros env db method week_ago Hm Hc Hw Hq Hempty.
  unfold get_latest_news, latest_news_body. rewrite Hm, Hc, Hw, Hq. cbn [bind].
  unfold news_data, latest_of_category. rewrite Hempty. reflexivity.
Qed.

(** C8. Evaluation after one article per category was saved into the
    empty collection: the query loop fills [news_data] with one document
    per category, but every document carries its [created_at] timestamp,
    [json.dumps] raises on it, and the handler answers 500 with the error
    text instead of the mapping. *)
Theorem C8_get_latest_news_answers_500_once_articles_are_stored :
  save_articles_to_firestore Sample.all_sites_up Sample.empty_db
                             Sample.one_per_category
  = Return Sample.stored_one_per_category /\
  map (fun entry => (fst entry, map doc_id (snd entry)))
      (news_data Sample.stored_one_per_category)
  = [ (major_news, [0%N]); (education_office_news, [3%N]);
      (university_news, [1%N]); (exam_schedule, [2%N]) ] /\
  json_dumps_news (news_data Sample.stored_one_per_category)
  = Raise (Exception NOT_JSON_SERIALIZABLE) /\
  get_latest_news Sample.all_sites_up Sample.stored_one_per_category (u "GET")
  = mk_http (body_error NOT_JSON_SERIALIZABLE) 500 CORS_HEADERS.
Proof.
  split; [vm_compute; reflexivity |].
  split; [vm_compute; reflexivity |].
  split; [vm_compute; reflexivity |].
  vm_compute. reflexivity.
Qed.
